(** * nrfis front-end: the interaction logic of Model, Screen and Chart

    A shallow embedding of the three React components of the mobile
    front-end (the 3D model view, the screen container and the time-series
    chart) together with the properties their handlers maintain.

    JavaScript numbers are IEEE 754 binary64 values; they are modelled by
    Rocq's primitive floats, whose operations are the same correctly
    rounded binary64 operations.  A component is modelled by a record of
    its [useState] cells.  A gesture handler runs to completion between
    two renders, so it is a function from the current state to the state
    after its setters.  The asynchronous code of the screen container (the
    effects, [refresh], the socket callbacks) reads the cells of the render
    that created the closure and writes through the setters; there the
    render closed over is an argument of its own, next to the state the
    setters act on. *)

From Stdlib Require Import Floats ZArith Bool Lia DecimalString DecimalNat.
From stdpp Require Import base list strings.

Set Default Proof Using "Type".

(* Decimal literals denote the nearest binary64 value, as they do in
   JavaScript source. *)
Set Warnings "-inexact-float".

(** ** JavaScript numbers *)

Module JS.

Abbreviation number := float.

(** [undefined] converted by ToNumber, as it is by every arithmetic and
    relational operator the components apply to an array slot. *)
Definition undefined : number := nan.

(** The relational operators on numbers.  Every comparison with NaN is
    false, as in IEEE 754. *)
Definition lt (a b : number) : bool := PrimFloat.ltb a b.
Definition gt (a b : number) : bool := PrimFloat.ltb b a.
Definition le (a b : number) : bool := PrimFloat.leb a b.
Definition ge (a b : number) : bool := PrimFloat.leb b a.

Definition Math_abs (a : number) : number := PrimFloat.abs a.

Definition is_neg_zero (a : number) : bool :=
  match PrimFloat.classify a with NZero => true | _ => false end.

(** [Math.min(a, b)]: NaN if either is NaN, and -0 is below +0. *)
Definition min2 (a b : number) : number :=
  if PrimFloat.is_nan a || PrimFloat.is_nan b then nan
  else if PrimFloat.ltb a b then a
  else if PrimFloat.ltb b a then b
  else if is_neg_zero a then a else b.

Definition max2 (a b : number) : number :=
  if PrimFloat.is_nan a || PrimFloat.is_nan b then nan
  else if PrimFloat.ltb a b then b
  else if PrimFloat.ltb b a then a
  else if is_neg_zero a then b else a.

(** [Math.min(...xs)] and [Math.max(...xs)]; on no arguments they are
    +Infinity and -Infinity. *)
Definition Math_min (xs : list number) : number := foldl min2 infinity xs.
Definition Math_max (xs : list number) : number := foldl max2 neg_infinity xs.

(** [null] converted by ToNumber. *)
Definition null : number := 0%float.

(** [xs[i]] read as a number: a missing slot is [undefined]. *)
Definition at_index (xs : list number) (i : nat) : number :=
  default undefined (xs !! i).

(** [xs[xs.length - 1]]: index -1 on the empty array is a missing slot. *)
Definition at_last (xs : list number) : number :=
  match length xs with
  | 0 => undefined
  | S n => at_index xs n
  end.

(** SameValueZero, the equality that ignores the sign of zero and holds of
    NaN with itself. *)
Definition same_value_zero (a b : number) : bool :=
  PrimFloat.eqb a b || (PrimFloat.is_nan a && PrimFloat.is_nan b).

(** The classes of numbers the window arithmetic distinguishes, read off
    the binary64 representation. *)
Definition is_NaN (a : number) : Prop := Prim2SF a = S754_nan.
Definition is_zero (a : number) : Prop :=
  exists sign, Prim2SF a = S754_zero sign.
Definition is_finite (a : number) : Prop :=
  is_zero a \/ exists sign m e, Prim2SF a = S754_finite sign m e.

Definition zero_or_NaN (a : number) : Prop := is_zero a \/ is_NaN a.

(** The decimal digits of an integral number below 2^53, which is what
    Number::toString prints for it; used to instantiate the conversion in
    examples. *)
Definition integral_value (a : number) : option Z :=
  match Prim2SF a with
  | S754_zero _ => Some 0%Z
  | S754_finite s m e =>
      let mag := if (0 <=? e)%Z then Some (Z.pos m * 2 ^ e)%Z
                 else if (Z.pos m mod 2 ^ (- e) =? 0)%Z
                      then Some (Z.pos m / 2 ^ (- e))%Z else None in
      option_map (fun z => if s then (- z)%Z else z) mag
  | _ => None
  end.

Definition show_integral (a : number) : string :=
  match integral_value a with
  | Some z => NilZero.string_of_int (Z.to_int z)
  | None => "NaN"
  end.

End JS.

(** ** Data shared by the components *)

Module Data.

Import JS.

(** A sample of the data feed: a timestamp and one reading per sensor, in
    the key order of the sample object.  The feed delivers the timestamp as
    text ([T := string]); [refresh] stores it as a Unix time
    ([T := number]). *)
Record Sample (T : Type) := mkSample {
  timestamp : T;
  readings : list (string * number);
}.
Arguments mkSample {T}.
Arguments timestamp {T}.
Arguments readings {T}.

Record TemperatureSample := mkTemperatureSample {
  temperature : number;
  temperature_timestamp : number;
}.

(** [modelOptions]; [scale] is [None] when the colour-scale table has no
    entry for the data type ([undefined]). *)
Record ModelOptions := mkModelOptions {
  showContext : bool;
  colourMode : number;
  scale : option (list number);
}.

(** [{ name, isSelected, colour }]; [colour] is [None] when the palette
    lookup is [undefined]. *)
Record Sensor := mkSensor {
  name : string;
  isSelected : bool;
  colour : option string;
}.

Record ChartOptions := mkChartOptions {
  sensors : list Sensor;
  showTemperature : bool;
  temperatureData : list TemperatureSample;
}.

(** Truthiness of a number: false for +0, -0 and NaN. *)
Definition truthy (a : number) : bool :=
  negb (PrimFloat.is_zero a || PrimFloat.is_nan a).

(** What an awaited promise, or a call that may throw, delivers. *)
Inductive outcome (A : Type) :=
| Resolved (a : A)
| Rejected (error : string).
Arguments Resolved {A}.
Arguments Rejected {A}.

(** [Platform.OS] and [Platform.select({ default: 0, ios: 1 })]. *)
Inductive OS := ios | android | web | windows | macos.
Definition Platform_select (os : OS) : nat :=
  match os with ios => 1 | _ => 0 end.

(** An entry of [event.touchHistory.touchBank]. *)
Record Touch := mkTouch {
  currentPageX : number; previousPageX : number;
  currentPageY : number; previousPageY : number;
}.

(** [State] of react-native-gesture-handler. *)
Inductive GestureState :=
  UNDETERMINED | FAILED | BEGAN | CANCELLED | ACTIVE | END.

Definition is_ACTIVE (g : GestureState) : bool :=
  match g with ACTIVE => true | _ => false end.

End Data.

(** ** Model.js: the 3D model view *)

Module Model.

Import JS Data.

(** [THREE.Euler]; [new THREE.Euler(x, y)] leaves [z] at its default 0. *)
Record Euler := mkEuler { ex : number; ey : number; ez : number }.
Definition new_Euler (x y : number) : Euler := mkEuler x y 0.

(** A sample as the view enumerates it with [Object.entries]. *)
Definition sample := list (string * number).

Record Props := mkProps {
  data : list sample;
  liveMode : bool;
  liveData : list sample;
  modelOptions : ModelOptions;
}.

Record State := mkState {
  rotation : Euler;
  sensorColours : list (string * string);
  index : nat;
  zoom : number;
  baseZoom : number;
}.

Definition init : State := mkState (new_Euler 0 0) [] 0 1 1.

(** The open interval the pinch handler keeps [zoom] in. *)
Definition zoom_in_bounds (s : State) : Prop :=
  gt (zoom s) 0.2 = true /\ lt (zoom s) 5 = true.

Definition setRotation (r : Euler) (s : State) : State :=
  mkState r (sensorColours s) (index s) (zoom s) (baseZoom s).
Definition setSensorColours (c : list (string * string)) (s : State) : State :=
  mkState (rotation s) c (index s) (zoom s) (baseZoom s).
Definition setIndex (i : nat) (s : State) : State :=
  mkState (rotation s) (sensorColours s) i (zoom s) (baseZoom s).
Definition setZoom (z : number) (s : State) : State :=
  mkState (rotation s) (sensorColours s) (index s) z (baseZoom s).
Definition setBaseZoom (z : number) (s : State) : State :=
  mkState (rotation s) (sensorColours s) (index s) (zoom s) z.

Section WithBuiltins.

(** Number::toString, applied by the template literal, and the
    exponentiation operator [**]; the language leaves the latter
    implementation-approximated, so nothing is assumed of it. *)
Variable Number_toString : number -> string.
Variable pow : number -> number -> number.
Variable Platform_OS : OS.

(** [None] is the TypeError of indexing an [undefined] scale. *)
Definition mapColour (p : Props) (value : number) : option string :=
  sc ← scale (modelOptions p);
  let min := at_index sc 0 in
  let max := at_index sc 1 in
  if lt value max && gt value min then
    let hue := ((1 - (value - min) / (max - min)) * 270)%float in
    Some ("hsl(" +:+ Number_toString hue +:+ ",100%,50%)")
  else Some "grey".

(** The sample the colour effect reads: the newest live sample in live
    mode, otherwise the one under the slider. *)
Definition current_sample (p : Props) (s : State) : option sample :=
  if liveMode p then
    match length (liveData p) with
    | 0 => None
    | S n => liveData p !! n
    end
  else data p !! index s.

Definition colourEffect (p : Props) (s : State) : State :=
  match current_sample p s with
  | Some smp =>
      match mapM (fun kv => c ← mapColour p kv.2; Some (kv.1, c)) smp with
      | Some colours => setSensorColours colours s
      | None => s
      end
  | None => s
  end.

(** A handler that raises before calling a setter leaves the state as
    it was; [None] stands for the raised TypeError. *)
Definition handleResponderMove (touchBank : list Touch) (s : State)
  : option State :=
  t ← touchBank !! Platform_select Platform_OS;
  let changeX := ((currentPageX t - previousPageX t) / 200)%float in
  let changeY := ((currentPageY t - previousPageY t) / 200)%float in
  Some (setRotation
          (new_Euler (ex (rotation s) + changeY) (ey (rotation s) + changeX))
          s).

Definition handlePinchGestureEvent (ev_scale : number) (s : State) : State :=
  let newZoom := (baseZoom s * pow ev_scale 0.5)%float in
  if gt (Math_abs (newZoom - zoom s)) 0.02 && gt newZoom 0.2 && lt newZoom 5
  then setZoom newZoom s
  else s.

Definition handleStateChange (oldState : GestureState) (s : State) : State :=
  if is_ACTIVE oldState then setBaseZoom (zoom s) s else s.

Definition onPressReset (s : State) : State :=
  setBaseZoom 1 (setZoom 1 (setRotation (new_Euler 0 0) s)).

Inductive Event :=
| ResponderMove (touchBank : list Touch)
| PinchGesture (ev_scale : number)
| HandlerStateChange (oldState : GestureState)
| SliderChange (value : nat)
| ResetPress
| Render (p : Props).

Definition step (s : State) (e : Event) : State :=
  match e with
  | ResponderMove tb => default s (handleResponderMove tb s)
  | PinchGesture sc => handlePinchGestureEvent sc s
  | HandlerStateChange g => handleStateChange g s
  | SliderChange v => setIndex v s
  | ResetPress => onPressReset s
  | Render p => colourEffect p s
  end.

Definition run (s : State) (es : list Event) : State := foldl step s es.

End WithBuiltins.

(** The slider's [maximumValue]:
    [props.data.length ? props.data.length - 1 : 0]. *)
Definition slider_maximum (p : Props) : nat :=
  match length (data p) with
  | 0 => 0
  | S n => n
  end.

(** The events that run the colour effect, and those that move the slider. *)
Definition is_Render (e : Event) : bool :=
  match e with Render _ => true | _ => false end.
Definition is_SliderChange (e : Event) : bool :=
  match e with SliderChange _ => true | _ => false end.

End Model.

(** ** Screen.js: the screen container *)

Module Screen.

Import JS Data.

Record Props := mkProps {
  packageServerName : string;
  packageURL : string;
}.

Record Socket := mkSocket { url : string }.

Local Set Implicit Arguments.

Section WithEnvironment.

(** [Date] objects and the values [JSON.parse] produces, with the builtins
    the container applies to them: [toISOString] (a RangeError on an
    invalid date), [Date.parse], [JSON.parse] ([None]: a SyntaxError) and
    property access [data[key]] ([None]: a TypeError on [null]). *)
Variables (Date value : Type).
Variable toISOString : Date -> outcome string.
Variable Date_parse : string -> number.
Variable JSON_parse : string -> option value.
Variable get_property : value -> string -> option value.

(** The engine takes a bounded number of arguments in one call: a spread
    call [f(...xs)] with more than [argument_limit] arguments raises a
    RangeError, whose text is [argument_limit_error]. *)
Variable argument_limit : nat.
Variable argument_limit_error : string.

(** The imports from [../utils]: the three fetchers, with what the server
    answers to each request, the chart palette and the colour-scale table
    ([None] where the table has no such key). *)
Variable fetchData :
  string -> string -> string -> string -> string -> outcome (list (Sample string)).
Variable fetchTemperatureData : Date -> Date -> outcome (list TemperatureSample).
Variable fetchSensorNames : string -> string -> outcome (list string).
Variable chartColours : list string.
Variable modelColourScale : string -> option (list number).

(** [startTime] and [endTime] start as the empty string ([None]) and hold
    a [Date] after a refresh. *)
Record ScreenState := mkScreenState {
  dataType : string;
  liveDataType : string;
  averagingWindow : string;
  startTime : option Date;
  endTime : option Date;
}.

(** The [useState] cells of the container, followed by what its handlers do
    outside React: the alerts shown, the socket the pending effect clean-up
    holds, and the sockets closed so far. *)
Record State := mkState {
  data : list (Sample number);
  mode : nat;
  live : bool;
  liveData : list value;
  liveMode : bool;
  dataRange : list number;
  isLoading : bool;
  screenState : ScreenState;
  chartOptions : ChartOptions;
  modelOptions : ModelOptions;
  showVisualisation : bool;
  alerts : list (string * string);
  ws : option Socket;
  closedSockets : list Socket;
}.

Definition init : State :=
  mkState [] 0 false [] false [] false
    (mkScreenState "" "str" "" None None)
    (mkChartOptions [] false [])
    (mkModelOptions true 1 (Some [(-200)%float; 200%float]))
    true [] None [].

Definition setData (v : list (Sample number)) (s : State) : State :=
  mkState v (mode s) (live s) (liveData s) (liveMode s) (dataRange s)
    (isLoading s) (screenState s) (chartOptions s) (modelOptions s)
    (showVisualisation s) (alerts s) (ws s) (closedSockets s).
Definition setMode (v : nat) (s : State) : State :=
  mkState (data s) v (live s) (liveData s) (liveMode s) (dataRange s)
    (isLoading s) (screenState s) (chartOptions s) (modelOptions s)
    (showVisualisation s) (alerts s) (ws s) (closedSockets s).
Definition setLive (v : bool) (s : State) : State :=
  mkState (data s) (mode s) v (liveData s) (liveMode s) (dataRange s)
    (isLoading s) (screenState s) (chartOptions s) (modelOptions s)
    (showVisualisation s) (alerts s) (ws s) (closedSockets s).
Definition setLiveData (f : list value -> list value) (s : State) : State :=
  mkState (data s) (mode s) (live s) (f (liveData s)) (liveMode s) (dataRange s)
    (isLoading s) (screenState s) (chartOptions s) (modelOptions s)
    (showVisualisation s) (alerts s) (ws s) (closedSockets s).
Definition setLiveMode (v : bool) (s : State) : State :=
  mkState (data s) (mode s) (live s) (liveData s) v (dataRange s)
    (isLoading s) (screenState s) (chartOptions s) (modelOptions s)
    (showVisualisation s) (alerts s) (ws s) (closedSockets s).
Definition setDataRange (v : list number) (s : State) : State :=
  mkState (data s) (mode s) (live s) (liveData s) (liveMode s) v
    (isLoading s) (screenState s) (chartOptions s) (modelOptions s)
    (showVisualisation s) (alerts s) (ws s) (closedSockets s).
Definition setIsLoading (v : bool) (s : State) : State :=
  mkState (data s) (mode s) (live s) (liveData s) (liveMode s) (dataRange s)
    v (screenState s) (chartOptions s) (modelOptions s)
    (showVisualisation s) (alerts s) (ws s) (closedSockets s).
Definition setScreenState (v : ScreenState) (s : State) : State :=
  mkState (data s) (mode s) (live s) (liveData s) (liveMode s) (dataRange s)
    (isLoading s) v (chartOptions s) (modelOptions s)
    (showVisualisation s) (alerts s) (ws s) (closedSockets s).
Definition setChartOptions (v : ChartOptions) (s : State) : State :=
  mkState (data s) (mode s) (live s) (liveData s) (liveMode s) (dataRange s)
    (isLoading s) (screenState s) v (modelOptions s)
    (showVisualisation s) (alerts s) (ws s) (closedSockets s).
Definition setModelOptions (v : ModelOptions) (s : State) : State :=
  mkState (data s) (mode s) (live s) (liveData s) (liveMode s) (dataRange s)
    (isLoading s) (screenState s) (chartOptions s) v
    (showVisualisation s) (alerts s) (ws s) (closedSockets s).
Definition setShowVisualisation (v : bool) (s : State) : State :=
  mkState (data s) (mode s) (live s) (liveData s) (liveMode s) (dataRange s)
    (isLoading s) (screenState s) (chartOptions s) (modelOptions s)
    v (alerts s) (ws s) (closedSockets s).

(** [Alert.alert(title, message)]. *)
Definition Alert_alert (title message : string) (s : State) : State :=
  mkState (data s) (mode s) (live s) (liveData s) (liveMode s) (dataRange s)
    (isLoading s) (screenState s) (chartOptions s) (modelOptions s)
    (showVisualisation s) (alerts s ++ [(title, message)]) (ws s)
    (closedSockets s).

(** [new WebSocket(url)], kept by the effect's clean-up closure. *)
Definition new_WebSocket (u : string) (s : State) : State :=
  mkState (data s) (mode s) (live s) (liveData s) (liveMode s) (dataRange s)
    (isLoading s) (screenState s) (chartOptions s) (modelOptions s)
    (showVisualisation s) (alerts s) (Some (mkSocket u)) (closedSockets s).

(** [ws.close()] in the clean-up, after which the clean-up is spent. *)
Definition ws_close (s : State) : State :=
  mkState (data s) (mode s) (live s) (liveData s) (liveMode s) (dataRange s)
    (isLoading s) (screenState s) (chartOptions s) (modelOptions s)
    (showVisualisation s) (alerts s) None
    (closedSockets s ++ option_list (ws s)).

Variable props : Props.

(** The sensor list both [setSensorNames] and [refresh] build:
    [sensorNames.map((sensorName, index) => ({ name, isSelected: index < 3,
    colour: chartColours[index % chartColours.length] }))].  With an empty
    palette the index is NaN and the colour [undefined]. *)
Definition palette (index : nat) : option string :=
  match length chartColours with
  | 0 => None
  | S _ => chartColours !! (index mod length chartColours)
  end.

Definition sensor_list (sensorNames : list string) : list Sensor :=
  imap (fun index sensorName => mkSensor sensorName (index <? 3) (palette index))
       sensorNames.

(** *** The live-status effect

    [c] is the render the effect closure was created in: the closure reads
    [liveMode], [modelOptions], [chartOptions] and [screenState] from it,
    while its setters act on the current state. *)
Definition liveStatusEffect (packages : list string) (c s : State) : State :=
  let live := bool_decide (packageServerName props ∈ packages) in
  let s := setLive live s in
  let s :=
    if liveMode c then
      let s := setModelOptions
                 (mkModelOptions (showContext (modelOptions c)) 1
                    (modelColourScale (liveDataType (screenState c)))) s in
      let s := setChartOptions
                 (mkChartOptions (sensors (chartOptions c)) false
                    (temperatureData (chartOptions c))) s in
      if String.eqb (liveDataType (screenState c)) "raw" then setMode 1 s else s
    else s in
  if negb live then setLiveMode false s else s.

(** *** Live data *)

Definition setSensorNames (c s : State) : State :=
  match fetchSensorNames (packageServerName props) (liveDataType (screenState c)) with
  | Resolved sensorNames =>
      setChartOptions
        (mkChartOptions (sensor_list sensorNames) false
           (temperatureData (chartOptions c))) s
  | Rejected _ =>
      setLiveMode false
        (Alert_alert "Live data error" "Could not fetch sensor names" s)
  end.

(** [ws.onmessage]; a message that does not parse, or whose parse result
    cannot be indexed, raises and leaves the buffer as it was. *)
Definition onmessage (message : string) (s : State) : State :=
  match JSON_parse message with
  | Some data =>
      match get_property data (packageServerName props) with
      | Some newSample =>
          setLiveData
            (fun liveData =>
               if 30 <? length liveData then [newSample]
               else liveData ++ [newSample]) s
      | None => s
      end
  | None => s
  end.

Definition live_data_url (c : State) : string :=
  "ws://129.169.72.175/fbg/live-data/?data-type=" +:+ liveDataType (screenState c).

(** The body of the socket effect in render [c], and its clean-up. *)
Definition socketEffect (c s : State) : State :=
  if liveMode c then setSensorNames c (new_WebSocket (live_data_url c) s)
  else s.

Definition socketCleanup (s : State) : State :=
  setLiveData (fun _ => []) (ws_close s).

(** What React does when [liveMode], the live data type or the package name
    differs from the previous render: the pending clean-up, if the previous
    run returned one, then the effect body of the new render. *)
Definition socketEffectRerun (c s : State) : State :=
  socketEffect c (match ws s with Some _ => socketCleanup s | None => s end).

(** *** Refresh

    The body of the [try] block threads the state through the setters and
    stops at the first rejected promise or thrown value. *)
Definition Try (A : Type) : Type := State -> State * outcome A.

Definition throw {A} (e : string) : Try A := fun s => (s, Rejected e).
Definition await {A} (o : outcome A) : Try A := fun s => (s, o).
Definition call (f : State -> State) : Try unit := fun s => (f s, Resolved tt).

#[local] Instance Try_ret : MRet Try := fun A a s => (s, Resolved a).
#[local] Instance Try_bind : MBind Try := fun A B k m s =>
  match m s with
  | (s', Resolved a) => k a s'
  | (s', Rejected e) => (s', Rejected e)
  end.

(** [f(...xs)] for a function of any number of arguments. *)
Definition spread (f : list number -> number) (xs : list number)
  : outcome number :=
  if length xs <=? argument_limit then Resolved (f xs)
  else Rejected argument_limit_error.

Definition parse_timestamp (sample : Sample string) : Sample number :=
  mkSample (Date_parse (timestamp sample)) (readings sample).

(** The call [fetchData(props.packageURL, dataType, averagingWindow,
    startTime.toISOString(), endTime.toISOString())]: the arguments are
    evaluated first, and a date that cannot be formatted raises before the
    request is made. *)
Definition request (dataType averagingWindow : string)
    (startTime endTime : Date) : outcome (list (Sample string)) :=
  match toISOString startTime with
  | Resolved start =>
      match toISOString endTime with
      | Resolved finish =>
          fetchData (packageURL props) dataType averagingWindow start finish
      | Rejected e => Rejected e
      end
  | Rejected e => Rejected e
  end.

Definition refresh_try (c : State) (dataType averagingWindow : string)
    (startTime endTime : Date) : Try unit :=
  fetched ← await (request dataType averagingWindow startTime endTime);
  match map parse_timestamp fetched with
  | [] => throw "No data available for this time period"
  | (first :: _) as data =>
      call (setData data);;
      let allReadings := flat_map (fun sample => (readings sample).*2) data in
      lowest ← await (spread Math_min allReadings);
      highest ← await (spread Math_max allReadings);
      let dataRange := [lowest; highest] in
      call (setDataRange dataRange);;
      (if String.eqb dataType "raw" then call (setMode 1) else mret tt);;
      call (setScreenState
              (mkScreenState dataType (liveDataType (screenState c))
                 averagingWindow (Some startTime) (Some endTime)));;
      let sensorNames := (readings first).*1 in
      temperatures ← await (fetchTemperatureData startTime endTime);
      call (setChartOptions
              (mkChartOptions (sensor_list sensorNames)
                 (showTemperature (chartOptions c)) temperatures));;
      call (setModelOptions
              (mkModelOptions (showContext (modelOptions c))
                 (colourMode (modelOptions c))
                 (if truthy (colourMode (modelOptions c))
                  then modelColourScale dataType else Some dataRange)))
  end.

(** The state and the completion of the [try] block of a refresh. *)
Definition refresh_attempt (c : State) (dataType averagingWindow : string)
    (startTime endTime : Date) (s : State) : State * outcome unit :=
  refresh_try c dataType averagingWindow startTime endTime (setIsLoading true s).

Definition refresh (c : State) (dataType averagingWindow : string)
    (startTime endTime : Date) (s : State) : State :=
  let attempt := refresh_attempt c dataType averagingWindow startTime endTime s in
  setIsLoading false
    match attempt.2 with
    | Resolved _ => attempt.1
    | Rejected error => Alert_alert "Refresh error" error attempt.1
    end.

(** The messages of a socket, delivered in order. *)
Definition receive (s : State) (messages : list string) : State :=
  foldl (fun s message => onmessage message s) s messages.

(** The sample a message delivers, if it delivers one, and the samples a
    run of messages delivers, in order. *)
Definition select_sample (message : string) : option value :=
  JSON_parse message ≫= fun data => get_property data (packageServerName props).

Definition delivered (messages : list string) : list value :=
  omap select_sample messages.

(** The focus effect and its clean-up. *)
Definition onFocus (s : State) : State := setShowVisualisation true s.
Definition onBlur (s : State) : State := setShowVisualisation false s.

(** Successive live-status updates, each seen by the render before it. *)
Definition liveStatusUpdates (s : State) (updates : list (list string)) : State :=
  foldl (fun s packages => liveStatusEffect packages s s) s updates.

End WithEnvironment.

End Screen.

(** ** Chart.js: the time-series chart *)

Module Chart.

Import JS Data.

Record Dataset := mkDataset {
  dataset_data : list (option number);
  stroke : option string;
  label : string;
}.

Record Props := mkProps {
  data : list (Sample number);
  chartOptions : ChartOptions;
}.

Record State := mkState {
  width : number;
  datasets : list Dataset;
  timestamps : list number;
  minX : number;
  maxX : number;
  baseRange : number * number;
  minInterval : number;
}.

Definition init : State := mkState 0 [] [] 0 0 (0%float, 0%float) 0.

Definition setWidth (v : number) (s : State) : State :=
  mkState v (datasets s) (timestamps s) (minX s) (maxX s) (baseRange s)
    (minInterval s).
Definition setDatasets (v : list Dataset) (s : State) : State :=
  mkState (width s) v (timestamps s) (minX s) (maxX s) (baseRange s)
    (minInterval s).
Definition setTimestamps (v : list number) (s : State) : State :=
  mkState (width s) (datasets s) v (minX s) (maxX s) (baseRange s)
    (minInterval s).
Definition setMinX (v : number) (s : State) : State :=
  mkState (width s) (datasets s) (timestamps s) v (maxX s) (baseRange s)
    (minInterval s).
Definition setMaxX (v : number) (s : State) : State :=
  mkState (width s) (datasets s) (timestamps s) (minX s) v (baseRange s)
    (minInterval s).
Definition setBaseRange (v : number * number) (s : State) : State :=
  mkState (width s) (datasets s) (timestamps s) (minX s) (maxX s) v
    (minInterval s).
Definition setMinInterval (v : number) (s : State) : State :=
  mkState (width s) (datasets s) (timestamps s) (minX s) (maxX s)
    (baseRange s) v.

(** [sample[name]]. *)
Definition sample_get (sample : Sample number) (key : string) : option number :=
  if String.eqb key "timestamp" then Some (timestamp sample)
  else snd <$> List.find (fun kv => String.eqb kv.1 key) (readings sample).

Definition datasetsEffect (p : Props) (s : State) : State :=
  setDatasets
    (map (fun sensor =>
            mkDataset (map (fun sample => sample_get sample (name sensor)) (data p))
              (colour sensor) (name sensor))
         (List.filter isSelected (sensors (chartOptions p))))
    s.

Definition timestampsEffect (p : Props) (s : State) : State :=
  setTimestamps (map timestamp (data p)) s.

(** [timestamps.map((timestamp, index) => index ? timestamp -
    timestamps[index - 1] : null).slice(1)]: the gaps between consecutive
    timestamps. *)
Definition intervals (ts : list number) : list number :=
  drop 1
    (imap (fun index timestamp =>
             match index with
             | 0 => null
             | S previous => (timestamp - at_index ts previous)%float
             end) ts).

(** The effect on [timestamps]: the window and the base range are reset to
    the whole series and the smallest gap is recomputed.  The gaps of one
    chart are taken to be within the number of arguments the engine accepts
    in the call [Math.min(...gaps)]. *)
Definition windowEffect (s : State) : State :=
  let ts := timestamps s in
  setMinInterval (Math_min (intervals ts))
    (setBaseRange (at_index ts 0, at_last ts)
       (setMaxX (at_last ts) (setMinX (at_index ts 0) s))).

Section WithPlatform.

(** Chart.js reads [Platform] without importing it: [None] is the free
    identifier left unbound, in which case the pan handler raises a
    ReferenceError before it calls a setter. *)
Variable Platform : option OS.

Definition handleResponderMove (touchBank : list Touch) (s : State)
  : option State :=
  os ← Platform;
  t ← touchBank !! Platform_select os;
  let change :=
    ((currentPageX t - previousPageX t) / width s
     * ((baseRange s).2 - (baseRange s).1))%float in
  let newMinX := (minX s - change)%float in
  let newMaxX := (maxX s - change)%float in
  if ge newMinX (at_index (timestamps s) 0)
     && le newMaxX (at_last (timestamps s))
  then Some (setMaxX newMaxX (setMinX newMinX s))
  else Some s.

Definition handlePinchGestureEvent (ev_scale focalX : number) (s : State)
  : State :=
  let oldRange := ((baseRange s).2 - (baseRange s).1)%float in
  let newRange := (oldRange * (1 / ev_scale))%float in
  let change := (newRange - oldRange)%float in
  let focalPoint := (focalX / width s)%float in
  let newMinX := (minX s - change * focalPoint)%float in
  let newMaxX := (maxX s + change * (1 - focalPoint))%float in
  if lt (newMaxX - newMinX) (2 * minInterval s)
     || lt (Math_abs change) (oldRange / 100)
  then s
  else
    let s := if ge newMinX (at_index (timestamps s) 0)
             then setMinX newMinX s else s in
    if le newMaxX (at_last (timestamps s)) then setMaxX newMaxX s else s.

Definition handleStateChange (oldState : GestureState) (s : State) : State :=
  if is_ACTIVE oldState then setBaseRange (minX s, maxX s) s else s.

(** The quantities a pinch event computes before it decides: the change
    of the range and the two proposed endpoints. *)
Definition pinch_change (ev_scale : number) (s : State) : number :=
  let oldRange := ((baseRange s).2 - (baseRange s).1)%float in
  (oldRange * (1 / ev_scale) - oldRange)%float.

Definition proposed_minX (ev_scale focalX : number) (s : State) : number :=
  (minX s - pinch_change ev_scale s * (focalX / width s))%float.

Definition proposed_maxX (ev_scale focalX : number) (s : State) : number :=
  (maxX s + pinch_change ev_scale s * (1 - focalX / width s))%float.

(** The gestures reach the handlers only while the chart is drawn, that is
    while [datasets] is not empty. *)
Inductive Gesture :=
| Layout (w : number)
| ResponderMove (touchBank : list Touch)
| PinchGesture (ev_scale focalX : number)
| HandlerStateChange (oldState : GestureState).

Definition gesture (s : State) (g : Gesture) : State :=
  match datasets s with
  | [] => s
  | _ :: _ =>
      match g with
      | Layout w => setWidth w s
      | ResponderMove tb => default s (handleResponderMove tb s)
      | PinchGesture sc fx => handlePinchGestureEvent sc fx s
      | HandlerStateChange g => handleStateChange g s
      end
  end.

Definition gestures (s : State) (gs : list Gesture) : State := foldl gesture s gs.

End WithPlatform.

(** A new [data] prop: the three effects in the order they are declared. *)
Definition dataChange (p : Props) (s : State) : State :=
  windowEffect (timestampsEffect p (datasetsEffect p s)).

(** The visible window lies inside the data: the two bounds the handlers
    test before they move an endpoint. *)
Definition window_inside (s : State) : Prop :=
  ge (minX s) (at_index (timestamps s) 0) = true
  /\ le (maxX s) (at_last (timestamps s)) = true.

(** [x] is the number [t], up to the sign of zero. *)
Definition pinned (t x : number) : Prop :=
  x = t \/ (is_zero t /\ is_zero x).

(** The window and the base range are collapsed onto the single
    timestamp [t]. *)
Definition collapsed (t : number) (s : State) : Prop :=
  pinned t (minX s) /\ pinned t (maxX s)
  /\ pinned t (baseRange s).1 /\ pinned t (baseRange s).2.

(** *** The value markers

    [Decorators] draws one marker per value of every dataset, keyed by
    [label + index] and placed at [timestamps[index]]. *)
Record DecoratorProps := mkDecoratorProps {
  decorator_key : string;
  decorator_value : option number;
  decorator_timestamp : option number;
  decorator_colour : option string;
}.

Definition Decorators (datasets : list Dataset) (timestamps : list number)
  : list (list DecoratorProps) :=
  map (fun dataset =>
         imap (fun index value =>
                 mkDecoratorProps
                   (label dataset +:+ NilZero.string_of_uint (Nat.to_uint index))
                   value (timestamps !! index) (stroke dataset))
              (dataset_data dataset))
      datasets.

End Chart.

(** ** Chart.js: the label of a value marker

    A marker shows its label when pressed and hides it when the timer the
    press started runs out.  The cells are followed by the host's timers:
    the identifiers pending and the next identifier [setTimeout] hands
    out. *)

Module Decorator.

Record State := mkState {
  showLabel : bool;
  timeoutID : nat;
  timers : list nat;
  nextTimer : nat;
}.

Definition init : State := mkState false 0 [] 1.

(** [clearTimeout(id)]: an identifier that is not pending is ignored. *)
Definition clearTimeout (id : nat) (pending : list nat) : list nat :=
  List.filter (fun t => negb (t =? id)) pending.

Definition toggleLabel (s : State) : State :=
  mkState true (nextTimer s)
    (clearTimeout (timeoutID s) (timers s) ++ [nextTimer s])
    (S (nextTimer s)).

(** The host runs the callback of a pending timer, [setShowLabel(false)];
    a timer that was cleared never runs. *)
Definition expire (id : nat) (s : State) : State :=
  if bool_decide (id ∈ timers s)
  then mkState false (timeoutID s) (clearTimeout id (timers s)) (nextTimer s)
  else s.

Inductive Event := Press | Expire (id : nat).

Definition step (s : State) (e : Event) : State :=
  match e with
  | Press => toggleLabel s
  | Expire id => expire id s
  end.

Definition run (s : State) (es : list Event) : State := foldl step s es.

(** The label shows exactly while one timer is pending, the one whose
    identifier the marker remembers. *)
Definition label_timer_consistent (s : State) : Prop :=
  (showLabel s = true /\ timers s = [timeoutID s])
  \/ (showLabel s = false /\ timers s = []).

End Decorator.

(** ** Screen.js: what the container renders *)

Module Visualisation.

Import Data.

(** The props [renderVisualisation] hands to [Chart]. *)
Definition chart_props {Date value : Type} (s : Screen.State Date value)
  : Chart.Props :=
  Chart.mkProps (Screen.data s) (Screen.chartOptions s).

Inductive view :=
| Hidden
| ShowsModel
| ShowsChart (p : Chart.Props).

Definition renderVisualisation {Date value : Type} (s : Screen.State Date value)
  : view :=
  if Screen.mode s =? 0 then ShowsModel else ShowsChart (chart_props s).

Definition render {Date value : Type} (s : Screen.State Date value) : view :=
  if Screen.showVisualisation s then renderVisualisation s else Hidden.

End Visualisation.

(** ** Concrete inputs used by the examples *)

Module Examples.

Import JS Data.

Definition model_props : Model.Props :=
  Model.mkProps [] false []
    (mkModelOptions true 1 (Some [(-200)%float; 200%float])).

Definition one_touch : list Touch := [mkTouch 30 10 5 25].

(** Exponentiation at the exponent the view uses, by the correctly rounded
    square root. *)
Definition pow_half (base exponent : number) : number :=
  if PrimFloat.eqb exponent 0.5 then PrimFloat.sqrt base else nan.

(** *** An environment for the screen container: a package server that
    answers for the strain data type, has no data for the raw data type,
    and no temperature record for the first of June. *)

Inductive date := invalid_date | june (day : nat).

Definition toISOString (d : date) : outcome string :=
  match d with
  | invalid_date => Rejected "RangeError: Invalid time value"
  | june day =>
      Resolved ("2020-06-" +:+ NilZero.string_of_uint (Nat.to_uint day)
                +:+ "T00:00:00.000Z")
  end.

Definition Date_parse (text : string) : number :=
  if String.eqb text "2020-06-02T00:00:00Z" then 1591056000000
  else if String.eqb text "2020-06-02T01:00:00Z" then 1591059600000
  else nan.

Inductive value :=
| VUndefined
| VNull
| VNumber (n : number)
| VObject (fields : list (string * number)).

Definition quoted (text : string) : string :=
  String (Ascii.ascii_of_nat 34) (text +:+ String (Ascii.ascii_of_nat 34) "").

(** The message [{"bridge":1.5}]. *)
Definition bridge_message : string := "{" +:+ quoted "bridge" +:+ ":1.5}".

Definition JSON_parse (text : string) : option value :=
  if String.eqb text bridge_message then Some (VObject [("bridge", 1.5%float)])
  else if String.eqb text "{}" then Some (VObject [])
  else if String.eqb text "null" then Some VNull
  else if String.eqb text "17" then Some (VNumber 17)
  else None.

Definition get_property (v : value) (key : string) : option value :=
  match v with
  | VNull | VUndefined => None
  | VObject fields =>
      Some (default VUndefined
              ((fun kv => VNumber kv.2)
                 <$> List.find (fun kv => String.eqb kv.1 key) fields))
  | VNumber _ => Some VUndefined
  end.

Definition strain_data : list (Sample string) :=
  [mkSample "2020-06-02T00:00:00Z"
     [("s1", 10%float); ("s2", (-5)%float); ("s3", 0%float); ("s4", 3%float)];
   mkSample "2020-06-02T01:00:00Z"
     [("s1", 12%float); ("s2", (-7)%float); ("s3", 1%float); ("s4", 2%float)]].

Definition fetchData (packageURL dataType averagingWindow start finish : string)
  : outcome (list (Sample string)) :=
  if String.eqb dataType "str" then Resolved strain_data
  else if String.eqb dataType "raw" then Resolved []
  else Rejected "Network request failed".

Definition fetchTemperatureData (startTime endTime : date)
  : outcome (list TemperatureSample) :=
  match startTime with
  | june 1 => Rejected "Network request failed"
  | _ => Resolved [mkTemperatureSample 18.5 1591056000000]
  end.

Definition fetchSensorNames (package dataType : string)
  : outcome (list string) :=
  if String.eqb dataType "str" then Resolved ["s1"; "s2"; "s3"; "s4"]
  else Rejected "Network request failed".

Definition chartColours : list string := ["red"; "green"; "blue"].

Definition modelColourScale (dataType : string) : option (list number) :=
  if String.eqb dataType "str" then Some [(-200)%float; 200%float]
  else if String.eqb dataType "raw" then Some [1500%float; 1600%float]
  else None.

Definition argument_limit : nat := 65535.
Definition argument_limit_error : string :=
  "RangeError: Maximum call stack size exceeded".

Definition screen_props : Screen.Props :=
  Screen.mkProps "bridge" "https://nrfis.example/bridge".

Definition screen_init : Screen.State date value := Screen.init date value.

(** A live buffer already holding 31 samples. *)
Definition full_buffer : Screen.State date value :=
  Screen.setLiveData (fun _ => replicate 31 (VNumber 0)) screen_init.


(** *** Chart inputs: a series sampled every 10 ms from 0 to 100, drawn for
    one selected sensor in a view 100 points wide, and a series of a single
    sample. *)

Definition chart_options : ChartOptions :=
  mkChartOptions [mkSensor "s1" true (Some "red")] false [].

Definition chart_props : Chart.Props :=
  Chart.mkProps
    (map (fun t => mkSample t [("s1", t)])
         [0; 10; 20; 30; 40; 50; 60; 70; 80; 90; 100]%float)
    chart_options.

Definition chart_loaded : Chart.State :=
  Chart.gestures (Some android) (Chart.dataChange chart_props Chart.init)
    [Chart.Layout 100].

Definition single_props : Chart.Props :=
  Chart.mkProps [mkSample 50%float [("s1", 1%float)]] chart_options.

Definition single_loaded : Chart.State :=
  Chart.timestampsEffect single_props
    (Chart.datasetsEffect single_props Chart.init).


(** *** Further inputs: a model with one historical sample, a live session
    on the raw data type, whose sensor names the server does not have, and
    a chart whose only sensor is not selected. *)

Definition model_data_props : Model.Props :=
  Model.mkProps [[("s1", 0%float); ("s2", 300%float)]] false []
    (mkModelOptions true 1 (Some [(-200)%float; 200%float])).

Definition live_raw : Screen.State date value :=
  Screen.setLiveMode true
    (Screen.setScreenState (Screen.mkScreenState "" "raw" "" None None)
       screen_init).

Definition unselected_props : Chart.Props :=
  Chart.mkProps (Chart.data chart_props)
    (mkChartOptions [mkSensor "s1" false (Some "red")] false []).

End Examples.

(** * Properties *)

(** ** Facts about binary64 comparison *)

Section FloatFacts.

Import JS.

Lemma SFcompare_diag_not_Lt (x : spec_float) : SFcompare x x <> Some Lt.
Proof.
  destruct x as [s|s| |s m e]; simpl; try destruct s; try discriminate.
  - rewrite Z.compare_refl, Pos.compare_cont_refl. discriminate.
  - rewrite Z.compare_refl, Pos.compare_cont_refl. discriminate.
Qed.

Lemma lt_irrefl (a : number) : lt a a = false.
Proof.
  unfold lt. rewrite ltb_spec. unfold SFltb.
  pose proof (SFcompare_diag_not_Lt (Prim2SF a)) as H.
  destruct (SFcompare (Prim2SF a) (Prim2SF a)) as [[]|]; congruence.
Qed.

Lemma lt_NaN_l (a b : number) : is_NaN a -> lt a b = false.
Proof. unfold lt, is_NaN. intros H. rewrite ltb_spec, H. reflexivity. Qed.

Lemma lt_NaN_r (a b : number) : is_NaN b -> lt a b = false.
Proof.
  unfold lt, is_NaN. intros H. rewrite ltb_spec, H.
  destruct (Prim2SF a); reflexivity.
Qed.

Lemma le_NaN_l (a b : number) : is_NaN a -> le a b = false.
Proof. unfold le, is_NaN. intros H. rewrite leb_spec, H. reflexivity. Qed.

Lemma ge_NaN_l (a b : number) : is_NaN a -> ge a b = false.
Proof.
  unfold ge, is_NaN. intros H. rewrite leb_spec, H.
  destruct (Prim2SF b); reflexivity.
Qed.

Lemma sub_NaN_l (a b : number) : is_NaN a -> is_NaN (a - b).
Proof. unfold is_NaN. intros H. rewrite sub_spec, H. reflexivity. Qed.

Lemma sub_NaN_r (a b : number) : is_NaN b -> is_NaN (a - b).
Proof.
  unfold is_NaN. intros H. rewrite sub_spec, H. destruct (Prim2SF a); reflexivity.
Qed.

Lemma add_NaN_r (a b : number) : is_NaN b -> is_NaN (a + b).
Proof.
  unfold is_NaN. intros H. rewrite add_spec, H. destruct (Prim2SF a); reflexivity.
Qed.

Lemma mul_NaN_l (a b : number) : is_NaN a -> is_NaN (a * b).
Proof. unfold is_NaN. intros H. rewrite mul_spec, H. reflexivity. Qed.

Lemma mul_NaN_r (a b : number) : is_NaN b -> is_NaN (a * b).
Proof.
  unfold is_NaN. intros H. rewrite mul_spec, H. destruct (Prim2SF a); reflexivity.
Qed.

(** A product with a zero factor is a zero, or NaN when the other factor
    is infinite or NaN. *)
Lemma mul_zero_l (a b : number) : is_zero a -> is_zero (a * b) \/ is_NaN (a * b).
Proof.
  unfold is_zero, is_NaN. intros [sa Ha]. rewrite mul_spec, Ha.
  destruct (Prim2SF b) as [sb|sb| |sb m e]; simpl; eauto.
Qed.

Lemma mul_zero_r (a b : number) : is_zero b -> is_zero (a * b) \/ is_NaN (a * b).
Proof.
  unfold is_zero, is_NaN. intros [sb Hb]. rewrite mul_spec, Hb.
  destruct (Prim2SF a) as [sa|sa| |sa m e]; simpl; eauto.
Qed.

Lemma sub_zero_zero (a b : number) : is_zero a -> is_zero b -> is_zero (a - b).
Proof.
  unfold is_zero. intros [sa Ha] [sb Hb]. rewrite sub_spec, Ha, Hb.
  destruct sa, sb; simpl; eauto.
Qed.

Lemma add_zero_zero (a b : number) : is_zero a -> is_zero b -> is_zero (a + b).
Proof.
  unfold is_zero. intros [sa Ha] [sb Hb]. rewrite add_spec, Ha, Hb.
  destruct sa, sb; simpl; eauto.
Qed.

(** The difference of a number with itself: zero for a finite number, NaN
    for an infinity or NaN. *)
Lemma sub_diag (a : number) :
  (is_finite a /\ is_zero (a - a)) \/ (~ is_finite a /\ is_NaN (a - a)).
Proof.
  unfold is_finite, is_zero, is_NaN. rewrite sub_spec.
  destruct (Prim2SF a) as [sa|sa| |sa m e] eqn:Ha.
  - left. split; [eauto|]. destruct sa; simpl; eauto.
  - right. split; [|destruct sa; reflexivity].
    intros [[? ?]|(? & ? & ? & ?)]; discriminate.
  - right. split; [|reflexivity].
    intros [[? ?]|(? & ? & ? & ?)]; discriminate.
  - left. split; [eauto 6|].
    unfold SF64sub, SFsub. rewrite Z.sub_diag. simpl. eauto.
Qed.

(** Subtracting or adding a zero does not move a number that is not
    itself a zero. *)
Lemma sub_zero_r (a b : number) :
  is_zero b -> ~ is_zero a -> (a - b)%float = a.
Proof.
  unfold is_zero. intros [sb Hb] Ha. apply Prim2SF_inj.
  rewrite sub_spec, Hb. destruct (Prim2SF a) as [sa|sa| |sa m e]; try reflexivity.
  destruct Ha. eauto.
Qed.

Lemma add_zero_r (a b : number) :
  is_zero b -> ~ is_zero a -> (a + b)%float = a.
Proof.
  unfold is_zero. intros [sb Hb] Ha. apply Prim2SF_inj.
  rewrite add_spec, Hb. destruct (Prim2SF a) as [sa|sa| |sa m e]; try reflexivity.
  destruct Ha. eauto.
Qed.

Lemma is_zero_dec (a : number) : is_zero a \/ ~ is_zero a.
Proof.
  unfold is_zero. destruct (Prim2SF a); eauto;
    right; intros [? ?]; discriminate.
Qed.

Lemma lt_zero_infinity (a : number) : is_zero a -> lt a (2 * infinity) = true.
Proof.
  unfold is_zero, lt. intros [sa Ha]. rewrite ltb_spec, Ha. reflexivity.
Qed.

Lemma same_value_zero_refl (a : number) : same_value_zero a a = true.
Proof.
  unfold same_value_zero, PrimFloat.is_nan. destruct (PrimFloat.eqb a a); reflexivity.
Qed.

Lemma same_value_zero_zeros (a b : number) :
  is_zero a -> is_zero b -> same_value_zero a b = true.
Proof.
  unfold is_zero, same_value_zero. intros [sa Ha] [sb Hb].
  rewrite FloatAxioms.eqb_spec, Ha, Hb. reflexivity.
Qed.

End FloatFacts.

(** ** Model.js *)

Section ModelProperties.

Import JS Data Model.

Variable Number_toString : number -> string.
Variable pow : number -> number -> number.
Variable Platform_OS : OS.

Local Abbreviation mapColour := (Model.mapColour Number_toString).
Local Abbreviation handleResponderMove := (Model.handleResponderMove Platform_OS).
Local Abbreviation handlePinchGestureEvent := (Model.handlePinchGestureEvent pow).
Local Abbreviation step := (Model.step Number_toString pow Platform_OS).
Local Abbreviation run := (Model.run Number_toString pow Platform_OS).

Lemma step_zoom_in_bounds (s : State) (e : Event) :
  zoom_in_bounds s -> zoom_in_bounds (step s e).
Proof.
  intros Hs. destruct e as [tb|sc|g|v| |p]; simpl.
  - unfold Model.handleResponderMove.
    destruct (tb !! Platform_select Platform_OS); exact Hs.
  - unfold Model.handlePinchGestureEvent.
    destruct (gt (Math_abs _) _ && gt _ _ && lt _ _) eqn:Hguard; [|exact Hs].
    apply andb_prop in Hguard as [Hguard Hlt].
    apply andb_prop in Hguard as [_ Hgt].
    split; assumption.
  - unfold handleStateChange. destruct (is_ACTIVE g); exact Hs.
  - exact Hs.
  - split; reflexivity.
  - unfold colourEffect. destruct (current_sample p s); [|exact Hs].
    destruct (mapM _ _); exact Hs.
Qed.

Lemma step_ez_zero (s : State) (e : Event) :
  ez (rotation s) = 0%float -> ez (rotation (step s e)) = 0%float.
Proof.
  intros Hs. destruct e as [tb|sc|g|v| |p]; simpl.
  - unfold Model.handleResponderMove.
    destruct (tb !! Platform_select Platform_OS); [reflexivity|exact Hs].
  - unfold Model.handlePinchGestureEvent.
    destruct (gt (Math_abs _) _ && gt _ _ && lt _ _); exact Hs.
  - unfold handleStateChange. destruct (is_ACTIVE g); exact Hs.
  - exact Hs.
  - reflexivity.
  - unfold colourEffect. destruct (current_sample p s); [|exact Hs].
    destruct (mapM _ _); exact Hs.
Qed.

Lemma run_invariant (P : State -> Prop) :
  (forall s e, P s -> P (step s e)) ->
  forall es s, P s -> P (run s es).
Proof.
  intros Hstep es. induction es as [|e es IH]; intros s Hs; simpl.
  - exact Hs.
  - apply IH, Hstep, Hs.
Qed.

Lemma mapColour_defined (p : Props) (sc : list number) (v : number) :
  scale (modelOptions p) = Some sc -> is_Some (mapColour p v).
Proof.
  intros Hscale. unfold Model.mapColour. rewrite Hscale. simpl.
  destruct (lt v _ && gt v _); eexists; reflexivity.
Qed.

(** The colour effect gives every sensor of the sample it reads the colour
    [mapColour] derives from its value. *)
Lemma colourEffect_colours (p : Props) (sc : list number) (s : State)
    (smp : sample) :
  scale (modelOptions p) = Some sc ->
  current_sample p s = Some smp ->
  Forall2 (fun reading coloured =>
             coloured.1 = reading.1 /\ mapColour p reading.2 = Some coloured.2)
    smp (sensorColours (Model.colourEffect Number_toString p s)).
Proof.
  intros Hscale Hsample. unfold Model.colourEffect. rewrite Hsample.
  destruct (mapM _ smp) as [colours|] eqn:Hmap.
  - apply mapM_Some_1 in Hmap. simpl.
    eapply Forall2_impl; [exact Hmap|]. intros reading coloured. simpl.
    destruct (mapColour p reading.2); simpl; [|discriminate].
    intros [= <-]. split; reflexivity.
  - apply mapM_None_1, Exists_exists in Hmap as (reading & _ & Hnone).
    destruct (mapColour_defined p sc reading.2 Hscale) as [colour Hcolour].
    rewrite Hcolour in Hnone. discriminate.
Qed.

(** C1. With colour scale [[min, max]], [mapColour] answers the HSL string
    of hue [(1 - (v - min) / (max - min)) * 270], saturation 100% and
    lightness 50% when [min < v < max], and ["grey"] for every other value;
    in particular at [v = min] and at [v = max]. *)
Theorem Model_mapColour (p : Props) (v min max : number) :
  scale (modelOptions p) = Some [min; max] ->
  mapColour p v =
    Some (if lt min v && lt v max
          then "hsl(" +:+ Number_toString ((1 - (v - min) / (max - min)) * 270)%float
               +:+ ",100%,50%)"
          else "grey")
  /\ mapColour p min = Some "grey"
  /\ mapColour p max = Some "grey".
Proof.
  intros Hscale. unfold Model.mapColour. rewrite Hscale. simpl.
  pose proof (lt_irrefl min) as Hmin. pose proof (lt_irrefl max) as Hmax.
  unfold at_index, gt, lt in *. simpl. repeat split.
  - rewrite (andb_comm (PrimFloat.ltb v max)).
    destruct (PrimFloat.ltb min v && PrimFloat.ltb v max); reflexivity.
  - rewrite Hmin, andb_false_r. reflexivity.
  - rewrite Hmax. reflexivity.
Qed.

(** C4. Starting from [zoom = 1], in every state the view reaches a pinch
    event sets [zoom] to [baseZoom * scale ** 0.5] exactly when that value
    is above 0.2, below 5 and more than 0.02 away from the current zoom,
    and otherwise changes nothing; [zoom] is in the open interval (0.2, 5)
    before and after it. *)
Theorem Model_zoom_bounded (es : list Event) (ev_scale : number) :
  let s := run init es in
  let newZoom := (baseZoom s * pow ev_scale 0.5)%float in
  let accepted :=
    gt newZoom 0.2 && lt newZoom 5 && gt (Math_abs (newZoom - zoom s)) 0.02 in
  zoom init = 1%float
  /\ handlePinchGestureEvent ev_scale s
     = (if accepted then setZoom newZoom s else s)
  /\ zoom_in_bounds s
  /\ zoom_in_bounds (handlePinchGestureEvent ev_scale s).
Proof.
  intros s newZoom accepted.
  assert (Hs : zoom_in_bounds s).
  { apply run_invariant; [apply step_zoom_in_bounds|split; reflexivity]. }
  repeat split; try apply Hs.
  - unfold Model.handlePinchGestureEvent, accepted. fold s. fold newZoom.
    destruct (gt newZoom 0.2), (lt newZoom 5),
      (gt (Math_abs (newZoom - zoom s)) 0.02); reflexivity.
  - apply (step_zoom_in_bounds s (PinchGesture ev_scale) Hs).
  - apply (step_zoom_in_bounds s (PinchGesture ev_scale) Hs).
Qed.

(** C7. In every state the view reaches, a touch move with page deltas
    [(dx, dy)] replaces the rotation [(x, y)] by [(x + dy / 200,
    y + dx / 200)] and changes nothing else, neither the third rotation
    component nor any other state cell; Reset puts the rotation back to
    [(0, 0)]. *)
Theorem Model_rotation_drag (es : list Event) (touchBank : list Touch)
    (t : Touch) :
  touchBank !! Platform_select Platform_OS = Some t ->
  let s := run init es in
  let dx := (currentPageX t - previousPageX t)%float in
  let dy := (currentPageY t - previousPageY t)%float in
  handleResponderMove touchBank s
  = Some (setRotation
            (mkEuler (ex (rotation s) + dy / 200) (ey (rotation s) + dx / 200)
               (ez (rotation s))) s)
  /\ rotation (onPressReset s) = mkEuler 0 0 0.
Proof.
  intros Ht s dx dy. split; [|reflexivity].
  unfold Model.handleResponderMove. rewrite Ht. simpl.
  assert (Hz : ez (rotation s) = 0%float).
  { apply (run_invariant (fun s => ez (rotation s) = 0%float));
      [apply step_ez_zero|reflexivity]. }
  rewrite Hz. reflexivity.
Qed.

End ModelProperties.

Section ModelExamples.

Import JS Data Model Examples.

Lemma Model_mapColour_witness :
  Model.mapColour show_integral model_props 0 = Some "hsl(135,100%,50%)"
  /\ Model.mapColour show_integral model_props (-200) = Some "grey"
  /\ Model.mapColour show_integral model_props 200 = Some "grey".
Proof.
  exact (Model_mapColour show_integral model_props 0 (-200) 200 eq_refl).
Defined.

(** Two pinches around a release: the first doubles the zoom, the second
    would leave the interval and is ignored. *)
Lemma Model_zoom_bounded_witness :
  let s := Model.run show_integral pow_half android Model.init
             [PinchGesture 4; HandlerStateChange ACTIVE; PinchGesture 100] in
  zoom s = 2%float /\ zoom_in_bounds s.
Proof.
  split; [reflexivity|].
  exact (proj1 (proj2 (proj2
           (Model_zoom_bounded show_integral pow_half android
              [PinchGesture 4; HandlerStateChange ACTIVE; PinchGesture 100] 1)))).
Defined.

Lemma Model_rotation_drag_witness :
  Model.handleResponderMove android one_touch Model.init
  = Some (setRotation (mkEuler (-0.1) 0.1 0) Model.init).
Proof.
  exact (proj1 (Model_rotation_drag show_integral pow_half android []
                  one_touch (mkTouch 30 10 5 25) eq_refl)).
Defined.

End ModelExamples.

(** ** Screen.js *)

Section ScreenProperties.

Import JS Data Screen.

Variables (Date value : Type).
Variable toISOString : Date -> outcome string.
Variable Date_parse : string -> number.
Variable argument_limit : nat.
Variable argument_limit_error : string.
Variable JSON_parse : string -> option value.
Variable get_property : value -> string -> option value.
Variable fetchData :
  string -> string -> string -> string -> string -> outcome (list (Sample string)).
Variable fetchTemperatureData : Date -> Date -> outcome (list TemperatureSample).
Variable fetchSensorNames : string -> string -> outcome (list string).
Variable chartColours : list string.
Variable modelColourScale : string -> option (list number).
Variable props : Props.

Local Abbreviation State := (Screen.State Date value).
Local Abbreviation sensor_list := (Screen.sensor_list chartColours).
Local Abbreviation liveStatusEffect :=
  (Screen.liveStatusEffect modelColourScale props).
Local Abbreviation setSensorNames :=
  (Screen.setSensorNames fetchSensorNames chartColours props).
Local Abbreviation onmessage := (Screen.onmessage JSON_parse get_property props).
Local Abbreviation receive := (Screen.receive JSON_parse get_property props).
Local Abbreviation socketEffectRerun :=
  (Screen.socketEffectRerun fetchSensorNames chartColours props).
Local Abbreviation request := (Screen.request toISOString fetchData props).
Local Abbreviation refresh_attempt :=
  (Screen.refresh_attempt toISOString Date_parse argument_limit
     argument_limit_error fetchData fetchTemperatureData
     chartColours modelColourScale props).
Local Abbreviation refresh :=
  (Screen.refresh toISOString Date_parse argument_limit
     argument_limit_error fetchData fetchTemperatureData
     chartColours modelColourScale props).

Lemma palette_lookup (i : nat) :
  palette chartColours i = chartColours !! (i mod length chartColours).
Proof.
  unfold palette. destruct chartColours as [|colour rest] eqn:E; reflexivity.
Qed.

Lemma sensor_list_lookup (names : list string) (i : nat) :
  sensor_list names !! i
  = (fun n => mkSensor n (i <? 3) (palette chartColours i)) <$> names !! i.
Proof. unfold Screen.sensor_list. apply list_lookup_imap. Qed.

Lemma onmessage_liveData (message : string) (s : State) :
  liveData (onmessage message s)
  = match JSON_parse message ≫= (fun d => get_property d (packageServerName props)) with
    | Some newSample =>
        if 30 <? length (liveData s) then [newSample]
        else liveData s ++ [newSample]
    | None => liveData s
    end.
Proof.
  unfold Screen.onmessage. destruct (JSON_parse message) as [d|]; simpl; [|reflexivity].
  destruct (get_property d (packageServerName props)); reflexivity.
Qed.

Lemma onmessage_bounded (message : string) (s : State) :
  length (liveData s) <= 31 -> length (liveData (onmessage message s)) <= 31.
Proof.
  intros Hs. rewrite onmessage_liveData.
  destruct (JSON_parse message ≫= _) as [newSample|]; [|exact Hs].
  destruct (30 <? length (liveData s)) eqn:Hfull; simpl; [lia|].
  apply Nat.ltb_ge in Hfull. rewrite length_app. simpl. lia.
Qed.

Lemma receive_bounded (messages : list string) (s : State) :
  length (liveData s) <= 31 -> length (liveData (receive s messages)) <= 31.
Proof.
  revert s. induction messages as [|message messages IH]; intros s Hs; simpl.
  - exact Hs.
  - apply IH, onmessage_bounded, Hs.
Qed.

(** C3. The live-status effect records whether the package is reported
    live, and sets [liveMode] to false whenever it is not: after every
    live-status update, [liveMode] implies [live]. *)
Theorem Screen_liveMode_implies_live (packages : list string) (c s : State) :
  let s' := liveStatusEffect packages c s in
  live s' = bool_decide (packageServerName props ∈ packages)
  /\ (packageServerName props ∉ packages -> liveMode s' = false)
  /\ (liveMode s' = true -> live s' = true).
Proof.
  unfold Screen.liveStatusEffect.
  destruct (bool_decide_reflect (packageServerName props ∈ packages)) as [Hin|Hout];
    destruct (liveMode c); simpl;
    try destruct (String.eqb _ "raw"); simpl; repeat split;
    try done; try discriminate.
Qed.

(** C8. The live buffer is bounded: over every sequence of incoming
    messages it never holds more than 31 samples, because a message that
    delivers a sample appends it when the buffer holds at most 30 samples
    and otherwise restarts the buffer with that sample alone. *)
Theorem Screen_liveData_bounded (messages : list string) (s : State) :
  length (liveData s) <= 31 ->
  length (liveData (receive s messages)) <= 31
  /\ forall message d newSample,
       JSON_parse message = Some d ->
       get_property d (packageServerName props) = Some newSample ->
       liveData (onmessage message s)
       = if bool_decide (length (liveData s) <= 30)
         then liveData s ++ [newSample] else [newSample].
Proof.
  intros Hs. split; [apply receive_bounded, Hs|].
  intros message d newSample Hparse Hget.
  rewrite onmessage_liveData, Hparse. simpl. rewrite Hget.
  destruct (Nat.ltb_spec 30 (length (liveData s)));
    [rewrite bool_decide_eq_false_2 by lia|rewrite bool_decide_eq_true_2 by lia];
    reflexivity.
Qed.

Lemma refresh_attempt_resolved (c s : State) (dataType averagingWindow : string)
    (startTime endTime : Date) :
  (refresh_attempt c dataType averagingWindow startTime endTime s).2 = Resolved tt ->
  exists first rest temperatures,
    request dataType averagingWindow startTime endTime = Resolved (first :: rest)
    /\ fetchTemperatureData startTime endTime = Resolved temperatures
    /\ chartOptions (refresh c dataType averagingWindow startTime endTime s)
       = mkChartOptions (sensor_list (readings first).*1)
           (showTemperature (chartOptions c)) temperatures.
Proof.
  unfold Screen.refresh, Screen.refresh_attempt, Screen.refresh_try.
  unfold mbind, Try_bind, await.
  destruct (request dataType averagingWindow startTime endTime)
    as [[|first rest]|e]; simpl; [discriminate| |discriminate].
  unfold call at 1. simpl.
  destruct (spread _ _ Math_min _); simpl; [|discriminate].
  destruct (spread _ _ Math_max _); simpl; [|discriminate].
  unfold call at 1. simpl.
  destruct (String.eqb dataType "raw"); simpl;
    (destruct (fetchTemperatureData startTime endTime) as [temperatures|e];
     simpl; [|discriminate]);
    intros _; exists first, rest, temperatures; repeat split.
Qed.

(** C10. The sensor list built from [n] names has [n] entries; the entry at
    position [i] carries the [i]-th name, is selected exactly when
    [i < min n 3], and has colour [chartColours[i mod length chartColours]].
    Every resolved sensor-name fetch stores that list for the names
    fetched, and every refresh that succeeds stores it for the sensor
    names of the first sample, whatever the number of names. *)
Theorem Screen_sensor_list (names : list string) :
  length (sensor_list names) = length names
  /\ (forall i n, names !! i = Some n ->
      sensor_list names !! i
      = Some (mkSensor n (bool_decide (i < Nat.min (length names) 3))
                (chartColours !! (i mod length chartColours))))
  /\ (forall c s : State,
        fetchSensorNames (packageServerName props) (liveDataType (screenState c))
        = Resolved names ->
        sensors (chartOptions (setSensorNames c s)) = sensor_list names)
  /\ (forall (c : State) dataType averagingWindow startTime endTime (s : State),
        (refresh_attempt c dataType averagingWindow startTime endTime s).2
        = Resolved tt ->
        exists first rest,
          request dataType averagingWindow startTime endTime
          = Resolved (first :: rest)
          /\ sensors (chartOptions
                        (refresh c dataType averagingWindow startTime endTime s))
             = sensor_list (readings first).*1).
Proof.
  split; [apply length_imap|]. split; [|split].
  - intros i n Hn. pose proof (lookup_lt_Some _ _ _ Hn) as Hlt.
    rewrite sensor_list_lookup, Hn, palette_lookup. simpl. do 2 f_equal.
    destruct (Nat.ltb_spec i 3);
      [rewrite bool_decide_eq_true_2 by lia|rewrite bool_decide_eq_false_2 by lia];
      reflexivity.
  - intros c s Hfetch. unfold Screen.setSensorNames. rewrite Hfetch. reflexivity.
  - intros c dataType averagingWindow startTime endTime s Hresolved.
    destruct (refresh_attempt_resolved c s _ _ _ _ Hresolved)
      as (first & rest & temperatures & Hrequest & _ & Hoptions).
    exists first, rest. split; [exact Hrequest|]. rewrite Hoptions. reflexivity.
Qed.

(** C6, as the code has it.  A message that parses and can be indexed by
    the package name delivers the selected entry unchanged as the newest
    sample of the buffer: appended while the buffer holds at most 30
    samples, alone in the buffer otherwise; nothing but the buffer changes.
    When the socket effect is re-run because [liveMode], the live data type
    or the package changed, the socket of the previous run is closed and
    the buffer emptied; a socket for the new data type is opened only if
    [liveMode] is still on. *)
Theorem Screen_socket_pass_through (message : string) (d newSample : value)
    (sock : Socket) (c s : State) :
  JSON_parse message = Some d ->
  get_property d (packageServerName props) = Some newSample ->
  ws s = Some sock ->
  onmessage message s
  = setLiveData
      (fun liveData =>
         if bool_decide (length liveData <= 30)
         then liveData ++ [newSample] else [newSample]) s
  /\ last (liveData (onmessage message s)) = Some newSample
  /\ sock ∈ closedSockets (socketEffectRerun c s)
  /\ liveData (socketEffectRerun c s) = []
  /\ ws (socketEffectRerun c s)
     = if liveMode c then Some (mkSocket (live_data_url c)) else None.
Proof.
  intros Hparse Hget Hws. split; [|split].
  - unfold Screen.onmessage. rewrite Hparse, Hget. unfold setLiveData.
    destruct (Nat.ltb_spec 30 (length (liveData s)));
      [rewrite bool_decide_eq_false_2 by lia|rewrite bool_decide_eq_true_2 by lia];
      reflexivity.
  - rewrite onmessage_liveData, Hparse. simpl. rewrite Hget.
    destruct (30 <? length (liveData s)); [reflexivity|apply last_snoc].
  - unfold Screen.socketEffectRerun, socketEffect, Screen.setSensorNames.
    rewrite Hws.
    destruct (liveMode c); [destruct (fetchSensorNames _ _)|]; simpl;
      rewrite Hws;
      (split; [apply elem_of_app; right; now apply list_elem_of_singleton
              |split; reflexivity]).
Qed.

(** C2, as the code has it.  A refresh whose [try] block fails shows one
    alert with the error, ends with [isLoading] false and leaves
    [chartOptions] and [modelOptions] as they were; when it fails before
    any sample arrives (a date that cannot be formatted, a rejected fetch
    or an empty result) it also leaves [data], [dataRange], [screenState]
    and [mode] as they were.  A rejected sensor-name fetch shows an alert
    and, besides, switches [liveMode] off. *)
Theorem Screen_refresh_failure (c s : State) (dataType averagingWindow : string)
    (startTime endTime : Date) (error : string) :
  (refresh_attempt c dataType averagingWindow startTime endTime s).2
  = Rejected error ->
  let s' := refresh c dataType averagingWindow startTime endTime s in
  isLoading s' = false
  /\ alerts s' = alerts s ++ [("Refresh error", error)]
  /\ chartOptions s' = chartOptions s
  /\ modelOptions s' = modelOptions s
  /\ ((forall first rest,
         request dataType averagingWindow startTime endTime
         <> Resolved (first :: rest)) ->
      data s' = data s /\ dataRange s' = dataRange s
      /\ screenState s' = screenState s /\ mode s' = mode s)
  /\ (forall (c0 s0 : State) reason,
        fetchSensorNames (packageServerName props)
          (liveDataType (screenState c0)) = Rejected reason ->
        setSensorNames c0 s0
        = setLiveMode false
            (Alert_alert "Live data error" "Could not fetch sensor names" s0)).
Proof.
  assert (Hnames : forall (c0 s0 : State) reason,
             fetchSensorNames (packageServerName props)
               (liveDataType (screenState c0)) = Rejected reason ->
             setSensorNames c0 s0
             = setLiveMode false
                 (Alert_alert "Live data error" "Could not fetch sensor names" s0)).
  { intros c0 s0 reason Hfetch. unfold Screen.setSensorNames. now rewrite Hfetch. }
  unfold Screen.refresh, Screen.refresh_attempt, Screen.refresh_try.
  unfold mbind, Try_bind, await.
  destruct (request dataType averagingWindow startTime endTime)
    as [[|first rest]|e] eqn:Hrequest; simpl.
  - intros [= <-]. do 4 (split; [reflexivity|]). split; [|exact Hnames].
    intros _. repeat split.
  - unfold call at 1. simpl.
    destruct (spread _ _ Math_min _); simpl;
      [|intros [= <-]; do 4 (split; [reflexivity|]); (split; [|exact Hnames]);
        intros Hnone; now destruct (Hnone _ _ eq_refl)].
    destruct (spread _ _ Math_max _); simpl;
      [|intros [= <-]; do 4 (split; [reflexivity|]); (split; [|exact Hnames]);
        intros Hnone; now destruct (Hnone _ _ eq_refl)].
    unfold call at 1. simpl.
    destruct (String.eqb dataType "raw"); simpl;
      (destruct (fetchTemperatureData startTime endTime) as [temperatures|e];
       simpl; [discriminate|]);
      intros [= <-]; do 4 (split; [reflexivity|]); (split; [|exact Hnames]);
      intros Hnone; now destruct (Hnone _ _ eq_refl).
  - intros [= <-]. do 4 (split; [reflexivity|]). split; [|exact Hnames].
    intros _. repeat split.
Qed.

End ScreenProperties.

Section ScreenExamples.

Import JS Data Screen Examples.

Lemma Screen_liveMode_implies_live_witness :
  liveMode (Screen.liveStatusEffect modelColourScale screen_props ["tower"]
              (setLiveMode true screen_init) (setLiveMode true screen_init))
  = false.
Proof.
  apply (Screen_liveMode_implies_live date value modelColourScale screen_props
           ["tower"] (setLiveMode true screen_init) (setLiveMode true screen_init)).
  vm_compute. intros H. inversion H as [|? ? ? H']; inversion H'.
Defined.

Lemma Screen_liveData_bounded_witness :
  length (liveData (Screen.receive JSON_parse get_property screen_props full_buffer
                      [bridge_message; "{}"; "oops"; "null"])) <= 31.
Proof.
  apply (Screen_liveData_bounded date value JSON_parse get_property screen_props
           [bridge_message; "{}"; "oops"; "null"] full_buffer).
  vm_compute. lia.
Defined.

Lemma Screen_sensor_list_witness :
  Screen.sensor_list chartColours ["s1"; "s2"; "s3"; "s4"] !! 3
  = Some (mkSensor "s4" false (Some "red"))
  /\ exists first rest,
       Screen.request toISOString fetchData screen_props "str" "hour"
         (june 2) (june 3) = Resolved (first :: rest)
       /\ sensors
            (chartOptions
               (Screen.refresh toISOString Date_parse argument_limit
                  argument_limit_error fetchData fetchTemperatureData
                  chartColours modelColourScale screen_props screen_init
                  "str" "hour" (june 2) (june 3) screen_init))
          = Screen.sensor_list chartColours (readings first).*1.
Proof.
  destruct (Screen_sensor_list date value toISOString Date_parse argument_limit
              argument_limit_error fetchData fetchTemperatureData
              fetchSensorNames chartColours modelColourScale screen_props
              ["s1"; "s2"; "s3"; "s4"])
    as (_ & Hlookup & _ & Hrefresh).
  split.
  - exact (Hlookup 3 "s4" eq_refl).
  - apply (Hrefresh screen_init "str" "hour" (june 2) (june 3) screen_init).
    vm_compute. reflexivity.
Defined.

(** With 31 samples in the buffer the new sample is not appended. *)
Lemma Screen_append_counterexample :
  JSON_parse bridge_message = Some (VObject [("bridge", 1.5%float)])
  /\ get_property (VObject [("bridge", 1.5%float)]) (packageServerName screen_props)
     = Some (VNumber 1.5)
  /\ liveData (Screen.onmessage JSON_parse get_property screen_props
                 bridge_message full_buffer)
     <> liveData full_buffer ++ [VNumber 1.5].
Proof. vm_compute. repeat split. discriminate. Qed.

Lemma Screen_socket_pass_through_witness :
  let s := new_WebSocket (live_data_url screen_init) full_buffer in
  liveData (Screen.onmessage JSON_parse get_property screen_props bridge_message s)
  = [VNumber 1.5]
  /\ liveData (Screen.socketEffectRerun fetchSensorNames chartColours screen_props
                 screen_init s) = [].
Proof.
  intros s.
  pose proof (Screen_socket_pass_through date value JSON_parse get_property
                fetchSensorNames chartColours screen_props bridge_message
                (VObject [("bridge", 1.5%float)]) (VNumber 1.5)
                (mkSocket (live_data_url screen_init)) screen_init s
                eq_refl eq_refl eq_refl) as (Hmessage & _ & _ & Hempty & _).
  split; [|exact Hempty]. rewrite Hmessage. reflexivity.
Defined.

(** A refresh that fails in the temperature fetch has already stored the
    new samples, their range and the new screen state. *)
Lemma Screen_refresh_counterexample :
  let attempt :=
    Screen.refresh_attempt toISOString Date_parse argument_limit
     argument_limit_error fetchData fetchTemperatureData
      chartColours modelColourScale screen_props screen_init "str" "hour"
      (june 1) (june 2) screen_init in
  let s' :=
    Screen.refresh toISOString Date_parse argument_limit
     argument_limit_error fetchData fetchTemperatureData
      chartColours modelColourScale screen_props screen_init "str" "hour"
      (june 1) (june 2) screen_init in
  attempt.2 = Rejected "Network request failed"
  /\ data s' <> data screen_init
  /\ dataRange s' <> dataRange screen_init
  /\ screenState s' <> screenState screen_init.
Proof. vm_compute. repeat split; discriminate. Qed.

Lemma Screen_refresh_failure_witness :
  let s' :=
    Screen.refresh toISOString Date_parse argument_limit
     argument_limit_error fetchData fetchTemperatureData
      chartColours modelColourScale screen_props screen_init "raw" "hour"
      (june 2) (june 3) screen_init in
  isLoading s' = false
  /\ alerts s' = [("Refresh error", "No data available for this time period")]
  /\ data s' = [].
Proof.
  pose proof (Screen_refresh_failure date value toISOString Date_parse
                argument_limit argument_limit_error fetchData
                fetchTemperatureData fetchSensorNames chartColours
                modelColourScale screen_props screen_init screen_init "raw" "hour"
                (june 2) (june 3) "No data available for this time period"
                eq_refl) as (Hloading & Halerts & _ & _ & Hearly & _).
  split; [exact Hloading|]. split; [exact Halerts|].
  apply Hearly. intros first rest. vm_compute. discriminate.
Defined.

End ScreenExamples.

(** ** Chart.js *)

Section ChartFacts.

Import JS Data Chart.

Lemma zero_or_NaN_mul_l (a b : number) : zero_or_NaN a -> zero_or_NaN (a * b).
Proof.
  intros [Ha|Ha]; [apply mul_zero_l, Ha|right; apply mul_NaN_l, Ha].
Qed.

Lemma zero_or_NaN_mul_r (a b : number) : zero_or_NaN b -> zero_or_NaN (a * b).
Proof.
  intros [Hb|Hb]; [apply mul_zero_r, Hb|right; apply mul_NaN_r, Hb].
Qed.

Lemma zero_or_NaN_sub (a b : number) :
  zero_or_NaN a -> zero_or_NaN b -> zero_or_NaN (a - b).
Proof.
  intros [Ha|Ha] [Hb|Hb].
  - left. apply sub_zero_zero; assumption.
  - right. apply sub_NaN_r, Hb.
  - right. apply sub_NaN_l, Ha.
  - right. apply sub_NaN_l, Ha.
Qed.

Lemma pinned_zero (t x : number) : is_zero t -> pinned t x -> is_zero x.
Proof. intros Ht [->|[_ Hx]]; assumption. Qed.

Lemma pinned_nonzero (t x : number) : ~ is_zero t -> pinned t x -> x = t.
Proof. intros Ht [->|[Hz _]]; [reflexivity|contradiction]. Qed.

(** Two numbers pinned to the same timestamp differ by zero, or by NaN
    when the timestamp is not finite. *)
Lemma pinned_difference (t x y : number) :
  pinned t x -> pinned t y ->
  (is_finite t /\ is_zero (y - x)) \/ (~ is_finite t /\ is_NaN (y - x)).
Proof.
  intros Hx Hy. destruct (is_zero_dec t) as [Ht|Ht].
  - left. split; [left; exact Ht|].
    apply sub_zero_zero; eapply pinned_zero; eassumption.
  - rewrite (pinned_nonzero t x Ht Hx), (pinned_nonzero t y Ht Hy).
    apply sub_diag.
Qed.

Lemma pinned_sub (t x c : number) :
  pinned t x -> zero_or_NaN c -> pinned t (x - c) \/ is_NaN (x - c).
Proof.
  intros Hx [Hc|Hc]; [|right; apply sub_NaN_r, Hc].
  left. destruct (is_zero_dec x) as [Hz|Hz].
  - right. split; [|apply sub_zero_zero; assumption].
    destruct Hx as [<-|[Ht _]]; assumption.
  - rewrite (sub_zero_r x c Hc Hz). exact Hx.
Qed.

Lemma pinned_add (t x c : number) :
  pinned t x -> zero_or_NaN c -> pinned t (x + c) \/ is_NaN (x + c).
Proof.
  intros Hx [Hc|Hc]; [|right; apply add_NaN_r, Hc].
  left. destruct (is_zero_dec x) as [Hz|Hz].
  - right. split; [|apply add_zero_zero; assumption].
    destruct Hx as [<-|[Ht _]]; assumption.
  - rewrite (add_zero_r x c Hc Hz). exact Hx.
Qed.

Lemma pinned_same_value (t x y : number) :
  pinned t x -> pinned t y -> same_value_zero x y = true.
Proof.
  intros Hx Hy. destruct (is_zero_dec t) as [Ht|Ht].
  - apply same_value_zero_zeros; eapply pinned_zero; eassumption.
  - rewrite (pinned_nonzero t x Ht Hx), (pinned_nonzero t y Ht Hy).
    apply same_value_zero_refl.
Qed.

Lemma collapsed_range (t : number) (s : State) :
  collapsed t s -> zero_or_NaN ((baseRange s).2 - (baseRange s).1).
Proof.
  intros (_ & _ & H1 & H2).
  destruct (pinned_difference t _ _ H1 H2) as [[_ H]|[_ H]]; [left|right]; exact H.
Qed.

Lemma collapsed_change (t : number) (s : State) (ev_scale : number) :
  collapsed t s -> zero_or_NaN (pinch_change ev_scale s).
Proof.
  intros Hs. pose proof (collapsed_range t s Hs) as Hrange.
  unfold pinch_change. apply zero_or_NaN_sub; [|exact Hrange].
  apply zero_or_NaN_mul_l, Hrange.
Qed.

End ChartFacts.

Section ChartProperties.

Import JS Data Chart.

Variable Platform : option OS.

Local Abbreviation handleResponderMove := (Chart.handleResponderMove Platform).
Local Abbreviation gesture := (Chart.gesture Platform).
Local Abbreviation gestures := (Chart.gestures Platform).

Lemma handlePinchGestureEvent_unfold (ev_scale focalX : number) (s : State) :
  handlePinchGestureEvent ev_scale focalX s
  = if lt (proposed_maxX ev_scale focalX s - proposed_minX ev_scale focalX s)
          (2 * minInterval s)
       || lt (Math_abs (pinch_change ev_scale s))
             (((baseRange s).2 - (baseRange s).1) / 100)
    then s
    else
      let s1 := if ge (proposed_minX ev_scale focalX s) (at_index (timestamps s) 0)
                then setMinX (proposed_minX ev_scale focalX s) s else s in
      if le (proposed_maxX ev_scale focalX s) (at_last (timestamps s))
      then setMaxX (proposed_maxX ev_scale focalX s) s1 else s1.
Proof.
  unfold handlePinchGestureEvent, proposed_maxX, proposed_minX, pinch_change.
  destruct (lt _ _ || lt _ _); [reflexivity|].
  destruct (ge _ _); reflexivity.
Qed.

(** No gesture touches the timestamps or the smallest gap. *)
Lemma gesture_frame (s : State) (g : Gesture) :
  timestamps (gesture s g) = timestamps s
  /\ minInterval (gesture s g) = minInterval s.
Proof.
  unfold Chart.gesture. destruct (datasets s); [split; reflexivity|].
  destruct g as [w|tb|sc fx|old].
  - split; reflexivity.
  - unfold Chart.handleResponderMove. destruct Platform as [os|]; simpl; [|split; reflexivity].
    destruct (tb !! Platform_select os); simpl; [|split; reflexivity].
    destruct (ge _ _ && le _ _); split; reflexivity.
  - rewrite handlePinchGestureEvent_unfold.
    destruct (lt _ _ || lt _ _); [split; reflexivity|]. simpl.
    destruct (ge _ _), (le _ _); split; reflexivity.
  - unfold handleStateChange. destruct (is_ACTIVE old); split; reflexivity.
Qed.

Lemma gestures_frame (gs : list Gesture) (s : State) :
  timestamps (gestures s gs) = timestamps s
  /\ minInterval (gestures s gs) = minInterval s.
Proof.
  revert s. induction gs as [|g gs IH]; intros s; simpl; [split; reflexivity|].
  destruct (IH (gesture s g)) as [-> ->]. apply gesture_frame.
Qed.

Lemma gesture_window_inside (s : State) (g : Gesture) :
  window_inside s -> window_inside (gesture s g).
Proof.
  intros Hs. unfold Chart.gesture. destruct (datasets s); [exact Hs|].
  destruct g as [w|tb|sc fx|old].
  - exact Hs.
  - unfold Chart.handleResponderMove. destruct Platform as [os|]; simpl; [|exact Hs].
    destruct (tb !! Platform_select os); simpl; [|exact Hs].
    destruct (ge _ _ && le _ _) eqn:Hguard; simpl; [|exact Hs].
    apply andb_prop in Hguard. exact Hguard.
  - rewrite handlePinchGestureEvent_unfold.
    destruct (lt _ _ || lt _ _); [exact Hs|]. simpl.
    destruct Hs as [Hmin Hmax]. unfold window_inside.
    destruct (ge (proposed_minX sc fx s) _) eqn:Hge;
      destruct (le (proposed_maxX sc fx s) _) eqn:Hle; split; simpl; assumption.
  - unfold handleStateChange. destruct (is_ACTIVE old); exact Hs.
Qed.

Lemma gestures_window_inside (gs : list Gesture) (s : State) :
  window_inside s -> window_inside (gestures s gs).
Proof.
  revert s. induction gs as [|g gs IH]; intros s Hs; simpl; [exact Hs|].
  apply IH, gesture_window_inside, Hs.
Qed.


Lemma proposed_minX_pinned (t : number) (sc fx : number) (s : State) :
  collapsed t s ->
  pinned t (proposed_minX sc fx s) \/ is_NaN (proposed_minX sc fx s).
Proof.
  intros Hs. unfold proposed_minX. apply pinned_sub; [apply Hs|].
  apply zero_or_NaN_mul_l, (collapsed_change t), Hs.
Qed.

Lemma proposed_maxX_pinned (t : number) (sc fx : number) (s : State) :
  collapsed t s ->
  pinned t (proposed_maxX sc fx s) \/ is_NaN (proposed_maxX sc fx s).
Proof.
  intros Hs. unfold proposed_maxX. apply pinned_add; [apply Hs|].
  apply zero_or_NaN_mul_l, (collapsed_change t), Hs.
Qed.

Lemma pinned_if_ge (t x y bound : number) :
  pinned t y -> pinned t x \/ is_NaN x -> pinned t (if ge x bound then x else y).
Proof.
  intros Hy [Hx|Hx]; [destruct (ge x bound); assumption|].
  rewrite (ge_NaN_l x bound Hx). exact Hy.
Qed.

Lemma pinned_if_le (t x y bound : number) :
  pinned t y -> pinned t x \/ is_NaN x -> pinned t (if le x bound then x else y).
Proof.
  intros Hy [Hx|Hx]; [destruct (le x bound); assumption|].
  rewrite (le_NaN_l x bound Hx). exact Hy.
Qed.

Lemma pinch_collapsed (t sc fx : number) (s : State) :
  collapsed t s -> collapsed t (handlePinchGestureEvent sc fx s).
Proof.
  intros Hs. rewrite handlePinchGestureEvent_unfold.
  destruct (lt _ _ || lt _ _); [exact Hs|]. simpl.
  pose proof (pinned_if_ge t _ _ (at_index (timestamps s) 0)
                (proj1 Hs) (proposed_minX_pinned t sc fx s Hs)) as Hmin.
  pose proof (pinned_if_le t _ _ (at_last (timestamps s))
                (proj1 (proj2 Hs)) (proposed_maxX_pinned t sc fx s Hs)) as Hmax.
  destruct Hs as (_ & _ & H1 & H2). unfold collapsed.
  destruct (ge (proposed_minX sc fx s) _);
    destruct (le (proposed_maxX sc fx s) _); simpl; repeat split; assumption.
Qed.

Lemma gesture_collapsed (t : number) (s : State) (g : Gesture) :
  collapsed t s -> collapsed t (gesture s g).
Proof.
  intros Hs. unfold Chart.gesture. destruct (datasets s); [exact Hs|].
  destruct g as [w|tb|sc fx|old].
  - exact Hs.
  - unfold Chart.handleResponderMove. destruct Platform as [os|]; simpl; [|exact Hs].
    destruct (tb !! Platform_select os) as [touch|]; simpl; [|exact Hs].
    set (change := (_ / width s * _)%float).
    assert (Hchange : zero_or_NaN change)
      by apply zero_or_NaN_mul_r, (collapsed_range t), Hs.
    destruct (ge (minX s - change) _ && le _ _) eqn:Hguard; simpl; [|exact Hs].
    apply andb_prop in Hguard as [Hge Hle].
    destruct Hs as (Hmin & Hmax & H1 & H2). unfold collapsed. simpl.
    repeat split; try assumption.
    + destruct (pinned_sub t _ change Hmin Hchange) as [H|H]; [exact H|].
      rewrite (ge_NaN_l _ _ H) in Hge. discriminate.
    + destruct (pinned_sub t _ change Hmax Hchange) as [H|H]; [exact H|].
      rewrite (le_NaN_l _ _ H) in Hle. discriminate.
  - apply pinch_collapsed, Hs.
  - unfold handleStateChange. destruct (is_ACTIVE old); [|exact Hs].
    destruct Hs as (Hmin & Hmax & _ & _). repeat split; assumption.
Qed.

Lemma gestures_collapsed (t : number) (gs : list Gesture) (s : State) :
  collapsed t s -> collapsed t (gestures s gs).
Proof.
  revert s. induction gs as [|g gs IH]; intros s Hs; simpl; [exact Hs|].
  apply IH, gesture_collapsed, Hs.
Qed.

(** With fewer than two timestamps the effect collapses the window onto
    the only timestamp (or onto [undefined]) and the smallest gap is the
    minimum of no numbers. *)
Lemma windowEffect_collapsed (s : State) :
  length (timestamps s) <= 1 ->
  collapsed (at_index (timestamps s) 0) (windowEffect s)
  /\ minInterval (windowEffect s) = infinity.
Proof.
  unfold windowEffect. destruct (timestamps s) as [|t [|t' ts]]; simpl.
  - intros _. repeat split; left; reflexivity.
  - intros _. repeat split; left; reflexivity.
  - intros H. lia.
Qed.

(** Once collapsed, a proposal whose endpoints are numbers is below any
    infinite threshold. *)
Lemma collapsed_proposal (t sc fx : number) (s : State) :
  collapsed t s -> minInterval s = infinity ->
  lt (proposed_maxX sc fx s - proposed_minX sc fx s) (2 * minInterval s) = true
  \/ is_NaN (proposed_minX sc fx s) \/ is_NaN (proposed_maxX sc fx s).
Proof.
  intros Hs Hgap.
  destruct (proposed_minX_pinned t sc fx s Hs) as [Hmin|Hmin]; [|tauto].
  destruct (proposed_maxX_pinned t sc fx s Hs) as [Hmax|Hmax]; [|tauto].
  destruct (pinned_difference t _ _ Hmin Hmax) as [[_ Hzero]|[Hinfinite Hnan]].
  - left. rewrite Hgap. apply lt_zero_infinity, Hzero.
  - right. left. unfold proposed_minX. apply sub_NaN_r, mul_NaN_l.
    unfold pinch_change.
    destruct Hs as (_ & _ & H1 & H2).
    destruct (pinned_difference t _ _ H1 H2) as [[Hfinite _]|[_ Hrange]];
      [contradiction|].
    apply sub_NaN_r, Hrange.
Qed.

(** C9, as the code has it.  A pinch event whose proposed width is below
    twice the smallest gap, or whose change of range is below 1% of the
    base range, updates neither endpoint.  With fewer than two timestamps
    the smallest gap is +Infinity, and from then on no pinch changes the
    window: the handler stops at the width test whenever the proposed
    endpoints are numbers, and the endpoints keep their value in every
    case. *)
Theorem Chart_pinch_rejects (gs : list Gesture) (ev_scale focalX : number)
    (s : State) :
  (lt (proposed_maxX ev_scale focalX s - proposed_minX ev_scale focalX s)
      (2 * minInterval s) = true
   \/ lt (Math_abs (pinch_change ev_scale s))
         (((baseRange s).2 - (baseRange s).1) / 100) = true ->
   handlePinchGestureEvent ev_scale focalX s = s)
  /\ (length (timestamps s) <= 1 ->
      let s0 := gestures (windowEffect s) gs in
      let s1 := handlePinchGestureEvent ev_scale focalX s0 in
      minInterval s0 = Math_min [] /\ Math_min [] = infinity
      /\ same_value_zero (minX s1) (minX s0) = true
      /\ same_value_zero (maxX s1) (maxX s0) = true
      /\ (lt (proposed_maxX ev_scale focalX s0 - proposed_minX ev_scale focalX s0)
             (2 * minInterval s0) = true
          \/ is_NaN (proposed_minX ev_scale focalX s0)
          \/ is_NaN (proposed_maxX ev_scale focalX s0))).
Proof.
  split.
  - intros Hguard. rewrite handlePinchGestureEvent_unfold.
    destruct Hguard as [-> | ->]; [reflexivity|rewrite orb_true_r; reflexivity].
  - intros Hlen s0 s1.
    destruct (windowEffect_collapsed s Hlen) as [Hcollapsed Hgap].
    set (t := at_index (timestamps s) 0) in Hcollapsed.
    assert (H0 : collapsed t s0) by apply gestures_collapsed, Hcollapsed.
    assert (Hgap0 : minInterval s0 = infinity).
    { unfold s0. rewrite (proj2 (gestures_frame gs _)). exact Hgap. }
    assert (H1 : collapsed t s1) by apply pinch_collapsed, H0.
    split; [exact Hgap0|]. split; [reflexivity|].
    split; [apply (pinned_same_value t); [apply H1|apply H0]|].
    split; [apply (pinned_same_value t); [apply H1|apply H0]|].
    apply (collapsed_proposal t); assumption.
Qed.

End ChartProperties.

Section ChartExamples.

Import JS Data Chart Examples.


(** A two-finger pinch whose focal point lies right of the chart moves the
    lower end only: the proposed window is 25 wide, the window set is
    6.25 wide, under twice the gap of 10. *)
Lemma Chart_pinch_counterexample :
  let s' := handlePinchGestureEvent 4 125 chart_loaded in
  minInterval chart_loaded = 10%float
  /\ (minX chart_loaded, maxX chart_loaded) = (0%float, 100%float)
  /\ (proposed_minX 4 125 chart_loaded, proposed_maxX 4 125 chart_loaded)
     = (93.75%float, 118.75%float)
  /\ (minX s', maxX s') = (93.75%float, 100%float)
  /\ lt (maxX s' - minX s') (2 * minInterval s') = true.
Proof. vm_compute. repeat split. Qed.

Lemma Chart_pinch_rejects_witness :
  let s0 := windowEffect single_loaded in
  handlePinchGestureEvent 20 50 chart_loaded = chart_loaded
  /\ minInterval s0 = infinity
  /\ same_value_zero (minX (handlePinchGestureEvent 2 50 s0)) (minX s0) = true.
Proof.
  intros s0.
  destruct (Chart_pinch_rejects (Some android) [] 20 50 chart_loaded) as [Hguard _].
  destruct (Chart_pinch_rejects (Some android) [] 2 50 single_loaded) as [_ Hsingle].
  split; [apply Hguard; left; vm_compute; reflexivity|].
  destruct (Hsingle ltac:(vm_compute; lia)) as (Hgap & Hinf & Hmin & _).
  split; [rewrite <- Hinf; exact Hgap|exact Hmin].
Defined.

End ChartExamples.

(** ** The order of binary64 numbers, and [Math.min] and [Math.max] *)

Section FloatOrder.

Import JS.

Lemma SFcompare_antisym (x y : spec_float) :
  SFcompare y x = option_map CompOpp (SFcompare x y).
Proof.
  destruct x as [sx|sx| |sx mx ex], y as [sy|sy| |sy my ey]; simpl;
    repeat match goal with s : bool |- _ => destruct s end; simpl;
    try reflexivity;
    rewrite (Z.compare_antisym ex ey);
    destruct (Z.compare_spec ex ey); simpl; try reflexivity;
    rewrite (Pos.compare_cont_antisym mx my Eq); simpl;
    destruct (Pos.compare_cont Eq mx my); reflexivity.
Qed.

Lemma SFcompare_refl (x : spec_float) :
  x <> S754_nan -> SFcompare x x = Some Eq.
Proof.
  destruct x as [s|s| |s m e]; simpl; intros H; try destruct s; try reflexivity;
    try congruence; rewrite Z.compare_refl, Pos.compare_cont_refl; reflexivity.
Qed.

Lemma SFcompare_defined (x y : spec_float) :
  x <> S754_nan -> y <> S754_nan -> SFcompare x y <> None.
Proof.
  destruct x as [sx|sx| |sx mx ex], y as [sy|sy| |sy my ey]; simpl;
    intros Hx Hy; try congruence;
    repeat match goal with s : bool |- _ => destruct s end; discriminate.
Qed.

Lemma SFleb_trans (x y z : spec_float) :
  SFleb x y = true -> SFleb y z = true -> SFleb x z = true.
Proof.
  unfold SFleb.
  destruct x as [sx|sx| |sx mx ex], y as [sy|sy| |sy my ey],
    z as [sz|sz| |sz mz ez]; simpl;
    repeat match goal with s : bool |- _ => destruct s end; simpl;
    try discriminate; try reflexivity;
    change (Pos.compare_cont Eq) with Pos.compare;
    destruct (Z.compare_spec ex ey), (Z.compare_spec ey ez),
      (Z.compare_spec ex ez); simpl; try discriminate; try reflexivity;
    try lia;
    destruct (Pos.compare_spec mx my), (Pos.compare_spec my mz),
      (Pos.compare_spec mx mz); simpl; try discriminate; try reflexivity;
    try lia.
Qed.

Lemma is_nan_true (a : number) : PrimFloat.is_nan a = true <-> is_NaN a.
Proof.
  unfold PrimFloat.is_nan, is_NaN. rewrite FloatAxioms.eqb_spec. unfold SFeqb.
  destruct (Prim2SF a) as [s|s| |s m e] eqn:Ha.
  - rewrite SFcompare_refl by discriminate. split; discriminate.
  - rewrite SFcompare_refl by discriminate. split; discriminate.
  - split; reflexivity.
  - rewrite SFcompare_refl by discriminate. split; discriminate.
Qed.

Lemma is_nan_false (a : number) : PrimFloat.is_nan a = false <-> ~ is_NaN a.
Proof.
  rewrite <- is_nan_true. destruct (PrimFloat.is_nan a); split; congruence.
Qed.

Lemma num_le_refl (a : number) : ~ is_NaN a -> le a a = true.
Proof.
  unfold le, is_NaN. intros Ha. rewrite leb_spec. unfold SFleb.
  rewrite SFcompare_refl by exact Ha. reflexivity.
Qed.

Lemma num_lt_le (a b : number) : lt a b = true -> le a b = true.
Proof.
  unfold lt, le. rewrite ltb_spec, leb_spec. unfold SFltb, SFleb.
  destruct (SFcompare (Prim2SF a) (Prim2SF b)) as [[]|]; congruence.
Qed.

Lemma num_not_lt_le (a b : number) :
  ~ is_NaN a -> ~ is_NaN b -> lt a b = false -> le b a = true.
Proof.
  unfold lt, le, is_NaN. intros Ha Hb. rewrite ltb_spec, leb_spec.
  unfold SFltb, SFleb. rewrite (SFcompare_antisym (Prim2SF a) (Prim2SF b)).
  pose proof (SFcompare_defined _ _ Ha Hb) as Hdefined.
  destruct (SFcompare (Prim2SF a) (Prim2SF b)) as [[]|]; simpl; congruence.
Qed.

Lemma num_le_trans (a b c : number) :
  le a b = true -> le b c = true -> le a c = true.
Proof. unfold le. rewrite !leb_spec. apply SFleb_trans. Qed.

Lemma num_le_not_NaN (a b : number) : le a b = true -> ~ is_NaN a /\ ~ is_NaN b.
Proof.
  unfold le, is_NaN. rewrite leb_spec. unfold SFleb. intros H.
  split; intros Hnan; rewrite Hnan in H; simpl in H;
    [|destruct (Prim2SF a)]; discriminate.
Qed.

(** [Math.min] of two numbers is one of them and below both; with a NaN
    argument it is NaN. *)
Lemma min2_spec (a b : number) :
  ~ is_NaN a -> ~ is_NaN b ->
  (min2 a b = a \/ min2 a b = b)
  /\ le (min2 a b) a = true /\ le (min2 a b) b = true.
Proof.
  intros Ha Hb. unfold min2.
  rewrite (proj2 (is_nan_false a) Ha), (proj2 (is_nan_false b) Hb). simpl.
  destruct (PrimFloat.ltb a b) eqn:Hab.
  - split; [left; reflexivity|]. split; [apply num_le_refl, Ha|apply num_lt_le, Hab].
  - destruct (PrimFloat.ltb b a) eqn:Hba.
    + split; [right; reflexivity|]. split; [apply num_lt_le, Hba|apply num_le_refl, Hb].
    + destruct (is_neg_zero a).
      * split; [left; reflexivity|].
        split; [apply num_le_refl, Ha|apply num_not_lt_le; assumption].
      * split; [right; reflexivity|].
        split; [apply num_not_lt_le; assumption|apply num_le_refl, Hb].
Qed.

Lemma max2_spec (a b : number) :
  ~ is_NaN a -> ~ is_NaN b ->
  (max2 a b = a \/ max2 a b = b)
  /\ le a (max2 a b) = true /\ le b (max2 a b) = true.
Proof.
  intros Ha Hb. unfold max2.
  rewrite (proj2 (is_nan_false a) Ha), (proj2 (is_nan_false b) Hb). simpl.
  destruct (PrimFloat.ltb a b) eqn:Hab.
  - split; [right; reflexivity|]. split; [apply num_lt_le, Hab|apply num_le_refl, Hb].
  - destruct (PrimFloat.ltb b a) eqn:Hba.
    + split; [left; reflexivity|]. split; [apply num_le_refl, Ha|apply num_lt_le, Hba].
    + destruct (is_neg_zero a).
      * split; [right; reflexivity|].
        split; [apply num_not_lt_le; assumption|apply num_le_refl, Hb].
      * split; [left; reflexivity|].
        split; [apply num_le_refl, Ha|apply num_not_lt_le; assumption].
Qed.

Lemma min2_NaN (a b : number) : is_NaN a \/ is_NaN b -> min2 a b = nan.
Proof.
  unfold min2. intros [H|H]; apply is_nan_true in H; rewrite H;
    [|rewrite orb_true_r]; reflexivity.
Qed.

Lemma max2_NaN (a b : number) : is_NaN a \/ is_NaN b -> max2 a b = nan.
Proof.
  unfold max2. intros [H|H]; apply is_nan_true in H; rewrite H;
    [|rewrite orb_true_r]; reflexivity.
Qed.

Lemma foldl_min2_bound (xs : list number) (acc : number) :
  ~ is_NaN acc -> Forall (fun x => ~ is_NaN x) xs ->
  let m := foldl min2 acc xs in
  (m = acc \/ m ∈ xs) /\ le m acc = true /\ Forall (fun x => le m x = true) xs.
Proof.
  revert acc. induction xs as [|x xs IH]; intros acc Hacc Hxs; simpl.
  - split; [left; reflexivity|]. split; [apply num_le_refl, Hacc|constructor].
  - inversion Hxs as [|? ? Hx Hrest]; subst.
    destruct (min2_spec acc x Hacc Hx) as (Hone & Hle_acc & Hle_x).
    assert (Hmin : ~ is_NaN (min2 acc x)) by (destruct Hone as [-> | ->]; assumption).
    destruct (IH (min2 acc x) Hmin Hrest) as (Hin & Hle & Hall).
    split; [|split].
    + destruct Hin as [->|Hin]; [|right; right; exact Hin].
      destruct Hone as [-> | ->]; [left; reflexivity|right; left].
    + eapply num_le_trans; eassumption.
    + constructor; [eapply num_le_trans; eassumption|exact Hall].
Qed.

Lemma foldl_max2_bound (xs : list number) (acc : number) :
  ~ is_NaN acc -> Forall (fun x => ~ is_NaN x) xs ->
  let m := foldl max2 acc xs in
  (m = acc \/ m ∈ xs) /\ le acc m = true /\ Forall (fun x => le x m = true) xs.
Proof.
  revert acc. induction xs as [|x xs IH]; intros acc Hacc Hxs; simpl.
  - split; [left; reflexivity|]. split; [apply num_le_refl, Hacc|constructor].
  - inversion Hxs as [|? ? Hx Hrest]; subst.
    destruct (max2_spec acc x Hacc Hx) as (Hone & Hle_acc & Hle_x).
    assert (Hmax : ~ is_NaN (max2 acc x)) by (destruct Hone as [-> | ->]; assumption).
    destruct (IH (max2 acc x) Hmax Hrest) as (Hin & Hle & Hall).
    split; [|split].
    + destruct Hin as [->|Hin]; [|right; right; exact Hin].
      destruct Hone as [-> | ->]; [left; reflexivity|right; left].
    + eapply num_le_trans; eassumption.
    + constructor; [eapply num_le_trans; eassumption|exact Hall].
Qed.

Lemma foldl_min2_NaN (xs : list number) : foldl min2 nan xs = nan.
Proof.
  induction xs as [|x xs IH]; simpl; [reflexivity|].
  rewrite (min2_NaN nan x) by (left; reflexivity). exact IH.
Qed.

Lemma foldl_max2_NaN (xs : list number) : foldl max2 nan xs = nan.
Proof.
  induction xs as [|x xs IH]; simpl; [reflexivity|].
  rewrite (max2_NaN nan x) by (left; reflexivity). exact IH.
Qed.

Lemma foldl_min2_Exists_NaN (xs : list number) (acc : number) :
  Exists is_NaN xs -> foldl min2 acc xs = nan.
Proof.
  intros Hxs. revert acc. induction Hxs as [x xs Hx|x xs _ IH]; intros acc; simpl.
  - rewrite (min2_NaN acc x) by (right; exact Hx). apply foldl_min2_NaN.
  - apply IH.
Qed.

Lemma foldl_max2_Exists_NaN (xs : list number) (acc : number) :
  Exists is_NaN xs -> foldl max2 acc xs = nan.
Proof.
  intros Hxs. revert acc. induction Hxs as [x xs Hx|x xs _ IH]; intros acc; simpl.
  - rewrite (max2_NaN acc x) by (right; exact Hx). apply foldl_max2_NaN.
  - apply IH.
Qed.

Lemma infinity_not_NaN : ~ is_NaN infinity /\ ~ is_NaN neg_infinity.
Proof. split; discriminate. Qed.

Lemma le_infinity_eq (a : number) : le infinity a = true -> a = infinity.
Proof.
  unfold le. rewrite leb_spec. intros H. apply Prim2SF_inj.
  destruct (Prim2SF a) as [sa|[]| |[] m e]; try discriminate. reflexivity.
Qed.

Lemma le_neg_infinity_eq (a : number) :
  le a neg_infinity = true -> a = neg_infinity.
Proof.
  unfold le. rewrite leb_spec. intros H. apply Prim2SF_inj.
  destruct (Prim2SF a) as [sa|[]| |[] m e]; try discriminate. reflexivity.
Qed.

End FloatOrder.

(** ** Model.js: the colour effect, the slider and the gesture cells *)

Section ModelExtras.

Import JS Data Model.

Variable Number_toString : number -> string.
Variable pow : number -> number -> number.
Variable Platform_OS : OS.

Local Abbreviation mapColour := (Model.mapColour Number_toString).
Local Abbreviation colourEffect := (Model.colourEffect Number_toString).
Local Abbreviation step := (Model.step Number_toString pow Platform_OS).
Local Abbreviation run := (Model.run Number_toString pow Platform_OS).

(** With a colour scale set, the colour effect recolours exactly the
    sensors of the sample it reads, in their order, each with the colour
    [mapColour] derives from its value, and touches no other cell. *)
Theorem Model_colour_effect (p : Props) (sc : list number) (s : State)
    (smp : sample) :
  scale (modelOptions p) = Some sc ->
  current_sample p s = Some smp ->
  let s' := colourEffect p s in
  (sensorColours s').*1 = smp.*1
  /\ Forall2 (fun reading coloured => mapColour p reading.2 = Some coloured.2)
       smp (sensorColours s')
  /\ s' = setSensorColours (sensorColours s') s.
Proof.
  intros Hscale Hsample s'.
  pose proof (colourEffect_colours Number_toString p sc s smp Hscale Hsample)
    as Hcolours. fold s' in Hcolours.
  split; [|split].
  - clear Hsample. generalize dependent (sensorColours s'). clear s'.
    intros colours Hcolours.
    induction Hcolours as [|reading coloured smp' colours' [Hkey _] _ IH];
      [reflexivity|]. rewrite !fmap_cons. f_equal; assumption.
  - eapply Forall2_impl; [exact Hcolours|]. intros ? ? [_ H]. exact H.
  - unfold s', Model.colourEffect. rewrite Hsample.
    destruct (mapM _ smp); [reflexivity|]. destruct s; reflexivity.
Qed.

(** In live mode the effect reads the newest live sample whatever the
    slider shows; in historical mode it reads the sample under the slider,
    which exists for every slider position when there is data.  Without a
    sample (no live sample yet, or no data) the colours are left as they
    are. *)
Theorem Model_sample_read (p : Props) (s : State) :
  (liveMode p = true -> current_sample p s = last (liveData p))
  /\ (liveMode p = false -> data p <> [] -> index s <= slider_maximum p ->
      is_Some (current_sample p s))
  /\ (current_sample p s = None -> colourEffect p s = s)
  /\ (liveMode p = true -> liveData p = [] -> colourEffect p s = s)
  /\ (liveMode p = false -> data p = [] -> colourEffect p s = s).
Proof.
  assert (Hnone : current_sample p s = None -> colourEffect p s = s).
  { intros H. unfold Model.colourEffect. rewrite H. reflexivity. }
  unfold current_sample, slider_maximum. repeat split.
  - intros ->. rewrite last_lookup. destruct (liveData p); reflexivity.
  - intros -> Hdata Hindex. apply lookup_lt_is_Some.
    destruct (data p); [congruence|]. simpl in *. lia.
  - exact Hnone.
  - intros Hlive Hempty. apply Hnone. unfold current_sample.
    rewrite Hlive, Hempty. reflexivity.
  - intros Hlive Hempty. apply Hnone. unfold current_sample.
    rewrite Hlive, Hempty. reflexivity.
Qed.

Lemma step_baseZoom_in_bounds (s : State) (e : Event) :
  zoom_in_bounds s ->
  gt (baseZoom s) 0.2 = true /\ lt (baseZoom s) 5 = true ->
  gt (baseZoom (step s e)) 0.2 = true /\ lt (baseZoom (step s e)) 5 = true.
Proof.
  intros Hzoom Hbase. destruct e as [tb|sc|g|v| |p]; simpl.
  - unfold Model.handleResponderMove.
    destruct (tb !! Platform_select Platform_OS); exact Hbase.
  - unfold Model.handlePinchGestureEvent.
    destruct (gt (Math_abs _) _ && gt _ _ && lt _ _); exact Hbase.
  - unfold handleStateChange. destruct (is_ACTIVE g); [exact Hzoom|exact Hbase].
  - exact Hbase.
  - split; reflexivity.
  - unfold Model.colourEffect. destruct (current_sample p s); [|exact Hbase].
    destruct (mapM _ _); exact Hbase.
Qed.

(** The zoom a pinch starts from stays in the open interval (0.2, 5) too:
    over every sequence of events, [baseZoom] is within the bounds, and
    the end of a gesture makes it the current zoom. *)
Theorem Model_baseZoom_bounded (es : list Event) :
  let s := run init es in
  gt (baseZoom s) 0.2 = true /\ lt (baseZoom s) 5 = true
  /\ baseZoom (handleStateChange ACTIVE s) = zoom s
  /\ zoom (handleStateChange ACTIVE s) = zoom s.
Proof.
  intros s.
  assert (H : zoom_in_bounds s
              /\ (gt (baseZoom s) 0.2 = true /\ lt (baseZoom s) 5 = true)).
  { unfold s.
    apply (run_invariant Number_toString pow Platform_OS
             (fun s => zoom_in_bounds s
                       /\ (gt (baseZoom s) 0.2 = true /\ lt (baseZoom s) 5 = true))).
    - intros s0 e [Hzoom Hbase]. split.
      + apply step_zoom_in_bounds, Hzoom.
      + apply step_baseZoom_in_bounds; assumption.
    - repeat split. }
  destruct H as [_ [Hgt Hlt]]. repeat split; assumption.
Qed.

(** The sensor colours change only when the colour effect runs and the
    slider position only when the slider moves: a run of events without
    the one leaves the colours, and without the other the position, as
    they were. *)
Theorem Model_cells_frame (es : list Event) (s : State) :
  (Forall (fun e => is_Render e = false) es ->
   sensorColours (run s es) = sensorColours s)
  /\ (Forall (fun e => is_SliderChange e = false) es ->
      index (run s es) = index s).
Proof.
  split; intros Hes; revert s;
    induction Hes as [|e es He _ IH]; intros s; simpl; try reflexivity;
    rewrite IH; destruct e as [tb|sc|g|v| |p]; simpl in *; try discriminate;
    try reflexivity;
    try (unfold Model.handleResponderMove;
         destruct (tb !! Platform_select Platform_OS); reflexivity);
    try (unfold Model.handlePinchGestureEvent;
         destruct (gt (Math_abs _) _ && gt _ _ && lt _ _); reflexivity);
    try (unfold handleStateChange; destruct (is_ACTIVE g); reflexivity).
  unfold Model.colourEffect. destruct (current_sample p s); [|reflexivity].
  destruct (mapM _ _); reflexivity.
Qed.

End ModelExtras.

(** ** Screen.js: refresh, the sensor list and the live feed *)

Section ScreenExtras.

Import JS Data Screen.

Variables (Date value : Type).
Variable toISOString : Date -> outcome string.
Variable Date_parse : string -> number.
Variable argument_limit : nat.
Variable argument_limit_error : string.
Variable JSON_parse : string -> option value.
Variable get_property : value -> string -> option value.
Variable fetchData :
  string -> string -> string -> string -> string -> outcome (list (Sample string)).
Variable fetchTemperatureData : Date -> Date -> outcome (list TemperatureSample).
Variable fetchSensorNames : string -> string -> outcome (list string).
Variable chartColours : list string.
Variable modelColourScale : string -> option (list number).
Variable props : Props.

Local Abbreviation State := (Screen.State Date value).
Local Abbreviation sensor_list := (Screen.sensor_list chartColours).
Local Abbreviation liveStatusEffect :=
  (Screen.liveStatusEffect modelColourScale props).
Local Abbreviation liveStatusUpdates :=
  (Screen.liveStatusUpdates modelColourScale props).
Local Abbreviation onmessage := (Screen.onmessage JSON_parse get_property props).
Local Abbreviation receive := (Screen.receive JSON_parse get_property props).
Local Abbreviation select_sample :=
  (Screen.select_sample JSON_parse get_property props).
Local Abbreviation delivered := (Screen.delivered JSON_parse get_property props).
Local Abbreviation socketEffectRerun :=
  (Screen.socketEffectRerun fetchSensorNames chartColours props).
Local Abbreviation request := (Screen.request toISOString fetchData props).
Local Abbreviation refresh :=
  (Screen.refresh toISOString Date_parse argument_limit
     argument_limit_error fetchData fetchTemperatureData
     chartColours modelColourScale props).

(** The readings of all stored samples, as [refresh] collects them. *)
Local Abbreviation allReadings :=
  (fun data : list (Sample number) =>
     flat_map (fun sample => (readings sample).*2) data).

Lemma spread_within (f : list number -> number) (xs : list number) :
  length xs <= argument_limit ->
  spread argument_limit argument_limit_error f xs = Resolved (f xs).
Proof.
  intros Hwithin. unfold spread.
  destruct (Nat.leb_spec (length xs) argument_limit); [reflexivity|lia].
Qed.

Lemma spread_beyond (f : list number -> number) (xs : list number) :
  argument_limit < length xs ->
  spread argument_limit argument_limit_error f xs = Rejected argument_limit_error.
Proof.
  intros Hbeyond. unfold spread.
  destruct (Nat.leb_spec (length xs) argument_limit); [lia|reflexivity].
Qed.

Lemma refresh_completed_state (c s : State) (dataType averagingWindow : string)
    (startTime endTime : Date) (first : Sample string)
    (rest : list (Sample string)) (temperatures : list TemperatureSample) :
  request dataType averagingWindow startTime endTime = Resolved (first :: rest) ->
  fetchTemperatureData startTime endTime = Resolved temperatures ->
  let data' := map (parse_timestamp Date_parse) (first :: rest) in
  length (allReadings data') <= argument_limit ->
  let dataRange' := [Math_min (allReadings data'); Math_max (allReadings data')] in
  refresh c dataType averagingWindow startTime endTime s
  = setIsLoading false
      (setModelOptions
         (mkModelOptions (showContext (modelOptions c))
            (colourMode (modelOptions c))
            (if truthy (colourMode (modelOptions c))
             then modelColourScale dataType else Some dataRange'))
         (setChartOptions
            (mkChartOptions (sensor_list (readings first).*1)
               (showTemperature (chartOptions c)) temperatures)
            (setScreenState
               (mkScreenState dataType (liveDataType (screenState c))
                  averagingWindow (Some startTime) (Some endTime))
               ((if String.eqb dataType "raw" then setMode 1 else id)
                  (setDataRange dataRange'
                     (setData data' (setIsLoading true s))))))).
Proof.
  intros Hrequest Htemperatures data' Hwithin dataRange'.
  unfold Screen.refresh, Screen.refresh_attempt, Screen.refresh_try.
  unfold mbind, Try_bind, await. rewrite Hrequest.
  change (map (parse_timestamp Date_parse) (first :: rest)) with data'.
  destruct data' as [|first' rest'] eqn:Hdata'; [discriminate|].
  assert (Hfirst : readings first' = readings first).
  { simpl in Hdata'. injection Hdata' as <- _. reflexivity. }
  cbv beta iota. unfold call at 1. cbv beta iota.
  rewrite !spread_within by exact Hwithin. cbv beta iota.
  unfold call at 1. cbv beta iota. rewrite Hfirst.
  destruct (String.eqb dataType "raw"); simpl; rewrite Htemperatures; reflexivity.
Qed.

(** A refresh that completes (the fetch answers with at least one sample,
    the readings fit in one call, the temperature fetch resolves) stores
    the parsed samples, the smallest and largest reading as the data range,
    the requested data type, window and
    period, the sensor list of the first sample with the temperatures
    fetched, and a colour scale that is the table entry of the data type
    in absolute colour mode and the data range in adaptive mode.  It
    switches to the chart for the raw data type only, keeps the live data
    type, the temperature switch and the colour mode of the render it was
    started from, shows no alert and ends with [isLoading] false. *)
Theorem Screen_refresh_completes (c s : State) (dataType averagingWindow : string)
    (startTime endTime : Date) (first : Sample string)
    (rest : list (Sample string)) (temperatures : list TemperatureSample) :
  request dataType averagingWindow startTime endTime = Resolved (first :: rest) ->
  fetchTemperatureData startTime endTime = Resolved temperatures ->
  length (allReadings (map (parse_timestamp Date_parse) (first :: rest)))
  <= argument_limit ->
  let s' := refresh c dataType averagingWindow startTime endTime s in
  let dataRange' :=
    [Math_min (allReadings (data s')); Math_max (allReadings (data s'))] in
  data s' = map (parse_timestamp Date_parse) (first :: rest)
  /\ dataRange s' = dataRange'
  /\ mode s' = (if String.eqb dataType "raw" then 1 else mode s)
  /\ screenState s'
     = mkScreenState dataType (liveDataType (screenState c)) averagingWindow
         (Some startTime) (Some endTime)
  /\ chartOptions s'
     = mkChartOptions (sensor_list (readings first).*1)
         (showTemperature (chartOptions c)) temperatures
  /\ modelOptions s'
     = mkModelOptions (showContext (modelOptions c)) (colourMode (modelOptions c))
         (if truthy (colourMode (modelOptions c))
          then modelColourScale dataType else Some dataRange')
  /\ isLoading s' = false
  /\ alerts s' = alerts s.
Proof.
  intros Hrequest Htemperatures Hwithin s' dataRange'. unfold dataRange', s'.
  rewrite (refresh_completed_state c s _ _ _ _ _ _ _ Hrequest Htemperatures
             Hwithin).
  destruct (String.eqb dataType "raw"); repeat split.
Qed.

(** Whatever the server answers, a refresh ends with [isLoading] false,
    shows at most one alert, and never touches the live side of the
    screen: [live], [liveMode], the live buffer, the socket and the
    visibility are as before. *)
Theorem Screen_refresh_frame (c s : State) (dataType averagingWindow : string)
    (startTime endTime : Date) :
  let s' := refresh c dataType averagingWindow startTime endTime s in
  isLoading s' = false
  /\ (alerts s' = alerts s
      \/ exists error, alerts s' = alerts s ++ [("Refresh error", error)])
  /\ live s' = live s /\ liveMode s' = liveMode s /\ liveData s' = liveData s
  /\ ws s' = ws s /\ closedSockets s' = closedSockets s
  /\ showVisualisation s' = showVisualisation s.
Proof.
  unfold Screen.refresh, Screen.refresh_attempt, Screen.refresh_try.
  unfold mbind, Try_bind, await.
  destruct (request dataType averagingWindow startTime endTime)
    as [[|first rest]|e]; simpl.
  - repeat split. right. eexists. reflexivity.
  - unfold call at 1. simpl.
    destruct (spread _ _ Math_min _); simpl; [|repeat split; eauto].
    destruct (spread _ _ Math_max _); simpl; [|repeat split; eauto].
    unfold call at 1. simpl.
    destruct (String.eqb dataType "raw"); simpl;
      destruct (fetchTemperatureData startTime endTime); simpl;
      repeat split; eauto.
  - repeat split. right. eexists. reflexivity.
Qed.

(** The data range of a completed refresh (at least one sample, readings
    that fit in one call, temperatures fetched) brackets the data: when no
    reading is NaN, every stored reading lies between its two entries,
    and both entries are readings if there is one.  A single NaN reading
    makes both entries NaN, and samples without readings give
    [[Infinity, -Infinity]]. *)
Theorem Screen_dataRange_brackets (c s : State) (dataType averagingWindow : string)
    (startTime endTime : Date) (first : Sample string)
    (rest : list (Sample string)) (temperatures : list TemperatureSample) :
  request dataType averagingWindow startTime endTime = Resolved (first :: rest) ->
  fetchTemperatureData startTime endTime = Resolved temperatures ->
  length (allReadings (map (parse_timestamp Date_parse) (first :: rest)))
  <= argument_limit ->
  let s' := refresh c dataType averagingWindow startTime endTime s in
  let all := allReadings (data s') in
  exists lo hi,
    dataRange s' = [lo; hi]
    /\ (Forall (fun v => ~ is_NaN v) all ->
        Forall (fun v => le lo v = true /\ le v hi = true) all
        /\ (all <> [] -> lo ∈ all /\ hi ∈ all))
    /\ (Exists is_NaN all -> lo = nan /\ hi = nan)
    /\ (all = [] -> lo = infinity /\ hi = neg_infinity).
Proof.
  intros Hrequest Htemperatures Hwithin s' all.
  exists (Math_min all), (Math_max all). split; [|split; [|split]].
  - unfold all, s'.
    rewrite (refresh_completed_state c s _ _ _ _ _ _ _ Hrequest Htemperatures
               Hwithin).
    destruct (String.eqb dataType "raw"); reflexivity.
  - intros Hnumbers.
    destruct (foldl_min2_bound all infinity (proj1 infinity_not_NaN) Hnumbers)
      as (Hmin_in & _ & Hmin).
    destruct (foldl_max2_bound all neg_infinity (proj2 infinity_not_NaN) Hnumbers)
      as (Hmax_in & _ & Hmax).
    fold (Math_min all) in Hmin_in, Hmin. fold (Math_max all) in Hmax_in, Hmax.
    split.
    + apply Forall_forall. intros v Hv. split.
      * exact (proj1 (Forall_forall _ _) Hmin v Hv).
      * exact (proj1 (Forall_forall _ _) Hmax v Hv).
    + intros Hsome. destruct all as [|v rest'] eqn:Hall; [congruence|].
      split.
      * destruct Hmin_in as [Hinf|Hin]; [|exact Hin].
        inversion Hmin as [|? ? Hle _]; subst. rewrite Hinf in Hle.
        rewrite Hinf, <- (le_infinity_eq v Hle). left.
      * destruct Hmax_in as [Hinf|Hin]; [|exact Hin].
        inversion Hmax as [|? ? Hle _]; subst. rewrite Hinf in Hle.
        rewrite Hinf, <- (le_neg_infinity_eq v Hle). left.
  - intros Hnan. split;
      [apply foldl_min2_Exists_NaN|apply foldl_max2_Exists_NaN]; exact Hnan.
  - intros ->. split; reflexivity.
Qed.

Lemma imap_offset_unselected (names : list string) (k : nat) :
  3 <= k ->
  List.filter isSelected
    (imap (fun index sensorName =>
             mkSensor sensorName (k + index <? 3) (palette chartColours (k + index)))
          names) = [].
Proof.
  intros Hk. induction names as [|n names IH] using rev_ind; [reflexivity|].
  rewrite imap_app, List.filter_app, IH. simpl.
  destruct (Nat.ltb_spec (k + (length names + 0)) 3); [lia|reflexivity].
Qed.

Lemma sensor_list_selected (names : list string) :
  List.filter isSelected (sensor_list names) = take 3 (sensor_list names).
Proof.
  unfold Screen.sensor_list.
  destruct names as [|n0 [|n1 [|n2 rest]]]; try reflexivity.
  rewrite !imap_cons. simpl. do 3 f_equal.
  rewrite take_0. apply (imap_offset_unselected rest 3). lia.
Qed.

Lemma sensor_list_names (names : list string) :
  name <$> sensor_list names = names.
Proof.
  apply list_eq. intros i.
  rewrite list_lookup_fmap. unfold Screen.sensor_list.
  rewrite list_lookup_imap. destruct (names !! i); reflexivity.
Qed.

(** The sensor list keeps the names in order and selects exactly its first
    three entries (all of them when there are fewer). *)
Theorem Screen_sensor_list_selection (names : list string) :
  name <$> sensor_list names = names
  /\ List.filter isSelected (sensor_list names) = take 3 (sensor_list names)
  /\ length (List.filter isSelected (sensor_list names)) = Nat.min (length names) 3.
Proof.
  split; [apply sensor_list_names|]. split; [apply sensor_list_selected|].
  rewrite sensor_list_selected, length_take. unfold Screen.sensor_list.
  rewrite length_imap. lia.
Qed.

(** With a palette, every sensor gets one of its colours and positions
    that differ by the length of the palette share a colour; with an empty
    palette no sensor has a colour. *)
Theorem Screen_sensor_colours (names : list string) (i : nat) (sensor : Sensor) :
  sensor_list names !! i = Some sensor ->
  (chartColours <> [] -> exists c, colour sensor = Some c /\ c ∈ chartColours)
  /\ (chartColours = [] -> colour sensor = None)
  /\ (forall later, sensor_list names !! (i + length chartColours) = Some later ->
      colour later = colour sensor).
Proof.
  unfold Screen.sensor_list. rewrite list_lookup_imap.
  destruct (names !! i) as [n|] eqn:Hn; simpl; [|discriminate].
  intros [= <-]. simpl. rewrite !palette_lookup. split; [|split].
  - intros Hpalette.
    assert (Hlt : i mod length chartColours < length chartColours).
    { apply Nat.mod_upper_bound. destruct chartColours; [congruence|simpl; lia]. }
    destruct (lookup_lt_is_Some_2 _ _ Hlt) as [c Hc].
    exists c. split; [exact Hc|]. eapply list_elem_of_lookup_2, Hc.
  - intros ->. reflexivity.
  - intros later. rewrite list_lookup_imap.
    destruct (names !! (i + length chartColours)); simpl; [|discriminate].
    intros [= <-]. simpl. rewrite palette_lookup.
    destruct chartColours as [|c0 cs] eqn:Hcs; [reflexivity|].
    replace (i + length (c0 :: cs)) with (i + 1 * length (c0 :: cs)) by lia.
    rewrite Nat.Div0.mod_add. reflexivity.
Qed.

Lemma liveStatusEffect_off (packages : list string) (s : State) :
  liveMode s = false ->
  liveStatusEffect packages s s
  = setLive (bool_decide (packageServerName props ∈ packages)) s.
Proof.
  intros Hoff. unfold Screen.liveStatusEffect. rewrite Hoff.
  destruct (bool_decide _); simpl; [reflexivity|].
  destruct s; simpl in *. subst. reflexivity.
Qed.

Lemma liveStatusUpdates_off (updates : list (list string)) (s : State) :
  liveMode s = false ->
  let s' := liveStatusUpdates s updates in
  liveMode s' = false /\ modelOptions s' = modelOptions s
  /\ chartOptions s' = chartOptions s /\ mode s' = mode s.
Proof.
  revert s. induction updates as [|packages updates IH]; intros s Hoff; simpl;
    [repeat split; exact Hoff|].
  rewrite (liveStatusEffect_off packages s Hoff).
  apply (IH (setLive _ s)). exact Hoff.
Qed.

(** The live-status effect never switches live mode on: in historical
    mode any run of status updates leaves [liveMode], the model options,
    the chart options and the view mode alone, and once an update does not
    list the package, live mode is off after every later update. *)
Theorem Screen_liveStatus_updates (before after : list (list string))
    (packages : list string) (s : State) :
  (liveMode s = false ->
   let s' := liveStatusUpdates s after in
   liveMode s' = false /\ modelOptions s' = modelOptions s
   /\ chartOptions s' = chartOptions s /\ mode s' = mode s)
  /\ (packageServerName props ∉ packages ->
      liveMode (liveStatusUpdates s (before ++ packages :: after)) = false).
Proof.
  split; [apply liveStatusUpdates_off|].
  intros Hout. unfold Screen.liveStatusUpdates. rewrite foldl_app. simpl.
  apply liveStatusUpdates_off.
  unfold Screen.liveStatusEffect.
  rewrite (bool_decide_eq_false_2 _ Hout). reflexivity.
Qed.

Lemma onmessage_step (message : string) (s : State) :
  liveData (onmessage message s)
  = match select_sample message with
    | Some newSample =>
        if 30 <? length (liveData s) then [newSample]
        else liveData s ++ [newSample]
    | None => liveData s
    end.
Proof.
  unfold Screen.onmessage, Screen.select_sample.
  destruct (JSON_parse message) as [d|]; simpl; [|reflexivity].
  destruct (get_property d (packageServerName props)); reflexivity.
Qed.

Lemma onmessage_frame (message : string) (s : State) :
  onmessage message s = setLiveData (fun _ => liveData (onmessage message s)) s.
Proof.
  unfold Screen.onmessage.
  destruct (JSON_parse message) as [d|]; simpl; [|destruct s; reflexivity].
  destruct (get_property d (packageServerName props));
    [reflexivity|destruct s; reflexivity].
Qed.

(** The live buffer only ever forgets old samples: after any run of
    messages it is a suffix of the earlier buffer followed by the samples
    delivered, in their order of arrival, and its newest entry is the last
    sample delivered.  Messages change no other cell. *)
Theorem Screen_liveData_suffix (messages : list string) (s : State) :
  let s' := receive s messages in
  liveData s' `suffix_of` liveData s ++ delivered messages
  /\ last (liveData s') = last (liveData s ++ delivered messages)
  /\ s' = setLiveData (fun _ => liveData s') s.
Proof.
  revert s. induction messages as [|message messages IH]; intros s.
  - simpl. rewrite app_nil_r. repeat split; [reflexivity|]. destruct s; reflexivity.
  - destruct (IH (onmessage message s)) as (Hsuffix & Hlast & Hframe).
    change (receive s (message :: messages))
      with (receive (onmessage message s) messages).
    assert (Hcons : delivered (message :: messages)
                    = from_option (fun x => [x]) [] (select_sample message)
                      ++ delivered messages).
    { unfold Screen.delivered. simpl. fold select_sample.
      destruct (select_sample message); reflexivity. }
    cbv zeta. rewrite Hcons. split; [|split].
    + etrans; [exact Hsuffix|]. rewrite (assoc_L (++)). apply suffix_app.
      rewrite onmessage_step.
      destruct (select_sample message) as [newSample|]; simpl;
        [|rewrite app_nil_r; reflexivity].
      destruct (30 <? length (liveData s)); [apply suffix_app_r|]; reflexivity.
    + rewrite Hlast, onmessage_step, (assoc_L (++) (liveData s)).
      destruct (select_sample message) as [newSample|]; simpl;
        [|rewrite app_nil_r; reflexivity].
      destruct (30 <? length (liveData s)); [|reflexivity].
      rewrite !last_app. simpl. reflexivity.
    + rewrite Hframe at 1.
      generalize (liveData (receive (onmessage message s) messages)).
      intros buffer. rewrite (onmessage_frame message s). reflexivity.
Qed.

(** A rejected sensor-name fetch ends the live session: the effect that
    opened the socket shows an alert and switches [liveMode] off without
    touching the chart options, and the re-run that this change causes
    closes that socket, empties the buffer and opens no other. *)
Theorem Screen_sensor_fetch_failure_ends_live (c c' s : State) (reason : string) :
  liveMode c = true ->
  fetchSensorNames (packageServerName props) (liveDataType (screenState c))
  = Rejected reason ->
  liveMode c' = false ->
  let s1 := socketEffectRerun c s in
  let s2 := socketEffectRerun c' s1 in
  liveMode s1 = false
  /\ alerts s1 = alerts s ++ [("Live data error", "Could not fetch sensor names")]
  /\ chartOptions s1 = chartOptions s
  /\ ws s1 = Some (mkSocket (live_data_url c))
  /\ mkSocket (live_data_url c) ∈ closedSockets s2
  /\ ws s2 = None /\ liveData s2 = [] /\ liveMode s2 = false.
Proof.
  intros Hlive Hfetch Hoff.
  unfold Screen.socketEffectRerun, socketEffect, Screen.setSensorNames.
  rewrite Hlive, Hfetch, Hoff.
  destruct (ws s); simpl; repeat split;
    apply elem_of_app; right; now apply list_elem_of_singleton.
Qed.

Lemma refresh_beyond_limit_state (c s : State)
    (dataType averagingWindow : string) (startTime endTime : Date)
    (first : Sample string) (rest : list (Sample string)) :
  request dataType averagingWindow startTime endTime = Resolved (first :: rest) ->
  argument_limit
  < length (allReadings (map (parse_timestamp Date_parse) (first :: rest))) ->
  refresh c dataType averagingWindow startTime endTime s
  = setIsLoading false
      (Alert_alert "Refresh error" argument_limit_error
         (setData (map (parse_timestamp Date_parse) (first :: rest))
            (setIsLoading true s))).
Proof.
  intros Hrequest Hbeyond.
  unfold Screen.refresh, Screen.refresh_attempt, Screen.refresh_try.
  unfold mbind, Try_bind, await. rewrite Hrequest.
  destruct (map (parse_timestamp Date_parse) (first :: rest))
    as [|first' rest'] eqn:Hdata'; [discriminate|].
  cbv beta iota. unfold call at 1. cbv beta iota.
  rewrite spread_beyond by exact Hbeyond. reflexivity.
Qed.

(** A refresh whose readings do not fit in one call fails at the data
    range: the samples fetched are stored, the RangeError is shown in one
    alert, and the data range, the view mode, the screen state, the chart
    options and the model options keep their earlier values; [isLoading]
    ends false. *)
Theorem Screen_refresh_argument_limit (c s : State)
    (dataType averagingWindow : string) (startTime endTime : Date)
    (first : Sample string) (rest : list (Sample string)) :
  request dataType averagingWindow startTime endTime = Resolved (first :: rest) ->
  argument_limit
  < length (allReadings (map (parse_timestamp Date_parse) (first :: rest))) ->
  let s' := refresh c dataType averagingWindow startTime endTime s in
  data s' = map (parse_timestamp Date_parse) (first :: rest)
  /\ alerts s' = alerts s ++ [("Refresh error", argument_limit_error)]
  /\ dataRange s' = dataRange s /\ mode s' = mode s
  /\ screenState s' = screenState s
  /\ chartOptions s' = chartOptions s /\ modelOptions s' = modelOptions s
  /\ isLoading s' = false.
Proof.
  intros Hrequest Hbeyond s'. unfold s'.
  rewrite (refresh_beyond_limit_state c s _ _ _ _ _ _ Hrequest Hbeyond).
  repeat split.
Qed.

End ScreenExtras.

(** ** Chart.js: datasets, the window, the gaps and the markers *)

Section ChartExtras.

Import JS Data Chart.

Variable Platform : option OS.

Local Abbreviation gesture := (Chart.gesture Platform).
Local Abbreviation gestures := (Chart.gestures Platform).


(** The datasets effect draws one dataset per selected sensor, in the
    order of the sensor list and labelled with the sensor name; each
    dataset has one point per sample, the sample's entry under that name,
    which is missing when the sample has no such entry. *)
Theorem Chart_datasets (p : Props) (s : State) :
  let s' := datasetsEffect p s in
  label <$> datasets s'
  = name <$> List.filter isSelected (sensors (chartOptions p))
  /\ Forall (fun d => length (dataset_data d) = length (data p)) (datasets s')
  /\ (forall j d i sample,
        datasets s' !! j = Some d -> data p !! i = Some sample ->
        dataset_data d !! i = Some (sample_get sample (label d)))
  /\ s' = setDatasets (datasets s') s.
Proof.
  unfold datasetsEffect. simpl. split; [|split; [|split]].
  - rewrite <- list_fmap_compose. reflexivity.
  - apply Forall_fmap, Forall_forall. intros sensor _. simpl.
    apply length_fmap.
  - intros j d i sample Hd Hsample.
    apply list_lookup_fmap_Some in Hd as (sensor & -> & _). simpl.
    rewrite list_lookup_fmap, Hsample. reflexivity.
  - reflexivity.
Qed.

(** When the first and the last timestamp are numbers, a new series puts
    the window and the base range on the whole series, which is a window
    inside the data, and every run of gestures keeps it inside. *)
Theorem Chart_window_established (p : Props) (s : State) (gs : list Gesture) :
  let ts := timestamp <$> data p in
  ~ is_NaN (at_index ts 0) -> ~ is_NaN (at_last ts) ->
  let s0 := dataChange p s in
  timestamps s0 = ts
  /\ minX s0 = at_index ts 0 /\ maxX s0 = at_last ts
  /\ baseRange s0 = (at_index ts 0, at_last ts)
  /\ window_inside s0
  /\ window_inside (gestures s0 gs).
Proof.
  intros ts Hfirst Hlast s0.
  assert (Hinside : window_inside s0).
  { split; simpl; [apply num_le_refl, Hfirst|apply num_le_refl, Hlast]. }
  repeat split; try apply Hinside.
  - apply (proj1 (gestures_window_inside Platform gs s0 Hinside)).
  - apply (proj2 (gestures_window_inside Platform gs s0 Hinside)).
Qed.


Lemma gestures_no_datasets (gs : list Gesture) (s : State) :
  datasets s = [] -> gestures s gs = s.
Proof.
  intros Hnone. induction gs as [|g gs IH]; simpl; [reflexivity|].
  assert (Hstep : gesture s g = s) by (unfold Chart.gesture; now rewrite Hnone).
  rewrite Hstep. exact IH.
Qed.

(** With no sensor selected (or none at all) nothing is drawn and the
    chart ignores every gesture. *)
Theorem Chart_no_selection (p : Props) (s : State) (gs : list Gesture) :
  Forall (fun sensor => isSelected sensor = false) (sensors (chartOptions p)) ->
  datasets (dataChange p s) = []
  /\ gestures (dataChange p s) gs = dataChange p s.
Proof.
  intros Hnone.
  assert (Hdatasets : datasets (dataChange p s) = []).
  { simpl. induction Hnone as [|sensor sensors Hoff _ IH]; [reflexivity|].
    simpl. rewrite Hoff. exact IH. }
  split; [exact Hdatasets|]. apply gestures_no_datasets, Hdatasets.
Qed.

(** Gestures move the window only: no run of gestures changes the
    datasets, the timestamps or the smallest gap, and the width changes
    only on a layout event. *)
Theorem Chart_gestures_frame (gs : list Gesture) (s : State) :
  datasets (gestures s gs) = datasets s
  /\ timestamps (gestures s gs) = timestamps s
  /\ minInterval (gestures s gs) = minInterval s
  /\ (Forall (fun g => match g with Layout _ => False | _ => True end) gs ->
      width (gestures s gs) = width s).
Proof.
  assert (Hstep : forall s g,
             datasets (gesture s g) = datasets s
             /\ (match g with Layout _ => False | _ => True end ->
                 width (gesture s g) = width s)).
  { intros s0 g. unfold Chart.gesture.
    destruct (datasets s0) eqn:Hdatasets; [split; [exact Hdatasets|reflexivity]|].
    destruct g as [w|tb|sc fx|old].
    - split; [exact Hdatasets|intros []].
    - unfold Chart.handleResponderMove.
      destruct Platform as [os|]; simpl; [|split; [exact Hdatasets|reflexivity]].
      destruct (tb !! Platform_select os); simpl;
        [|split; [exact Hdatasets|reflexivity]].
      destruct (ge _ _ && le _ _); split; try exact Hdatasets; reflexivity.
    - rewrite handlePinchGestureEvent_unfold.
      destruct (lt _ _ || lt _ _); [split; [exact Hdatasets|reflexivity]|].
      simpl. destruct (ge _ _), (le _ _); split; try exact Hdatasets; reflexivity.
    - unfold handleStateChange.
      destruct (is_ACTIVE old); split; try exact Hdatasets; reflexivity. }
  destruct (gestures_frame Platform gs s) as [Htimestamps Hgap].
  split; [|split; [exact Htimestamps|split; [exact Hgap|]]].
  - revert s Htimestamps Hgap. induction gs as [|g gs IH]; intros s _ _; simpl;
      [reflexivity|].
    destruct (gestures_frame Platform gs (gesture s g)) as [H1 H2].
    rewrite (IH (gesture s g) H1 H2). apply Hstep.
  - intros Hgs. clear Htimestamps Hgap. revert s.
    induction Hgs as [|g gs Hg _ IH]; intros s; simpl; [reflexivity|].
    rewrite IH. apply Hstep, Hg.
Qed.

Lemma datasets_points (p : Props) (s : State) (j : nat) (dataset : Dataset) :
  datasets (dataChange p s) !! j = Some dataset ->
  length (dataset_data dataset) = length (data p)
  /\ forall i sample, data p !! i = Some sample ->
       dataset_data dataset !! i = Some (sample_get sample (label dataset)).
Proof.
  simpl. intros Hdataset.
  apply list_lookup_fmap_Some in Hdataset as (sensor & -> & _). simpl.
  split; [apply length_fmap|].
  intros i sample Hsample. rewrite list_lookup_fmap, Hsample. reflexivity.
Qed.

Lemma append_inv_head (prefix a b : string) :
  prefix +:+ a = prefix +:+ b -> a = b.
Proof.
  induction prefix as [|c prefix IH]; simpl; [auto|].
  intros [= H]. apply IH, H.
Qed.

Lemma index_text_inj (i j : nat) :
  NilZero.string_of_uint (Nat.to_uint i) = NilZero.string_of_uint (Nat.to_uint j) ->
  i = j.
Proof.
  assert (Hnonnil : forall n, Nat.to_uint n <> Decimal.Nil).
  { intros n Hnil. pose proof (DecimalNat.Unsigned.of_to n) as Hn.
    rewrite Hnil in Hn. simpl in Hn. subst n. discriminate. }
  intros Heq. apply DecimalNat.Unsigned.to_uint_inj.
  pose proof (NilZero.usu _ (Hnonnil i)) as Hi.
  pose proof (NilZero.usu _ (Hnonnil j)) as Hj.
  rewrite Heq in Hi. congruence.
Qed.

(** After a new series every dataset gets one marker per sample, placed
    at the timestamp of the sample its value was read from and drawn in the
    dataset's colour, and the keys of the markers of one dataset are
    pairwise distinct. *)
Theorem Chart_decorators (p : Props) (s : State) (j : nat)
    (row : list DecoratorProps) :
  let s0 := dataChange p s in
  Decorators (datasets s0) (timestamps s0) !! j = Some row ->
  exists dataset,
    datasets s0 !! j = Some dataset
    /\ length row = length (data p)
    /\ (forall i sample, data p !! i = Some sample ->
        exists marker,
          row !! i = Some marker
          /\ decorator_timestamp marker = Some (timestamp sample)
          /\ decorator_value marker = sample_get sample (label dataset)
          /\ decorator_colour marker = stroke dataset)
    /\ NoDup (decorator_key <$> row).
Proof.
  intros s0. unfold Decorators. rewrite list_lookup_fmap.
  destruct (datasets s0 !! j) as [dataset|] eqn:Hdataset; simpl; [|discriminate].
  intros [= <-]. exists dataset. split; [reflexivity|].
  destruct (datasets_points p s j dataset Hdataset) as [Hlength Hpoints].
  split; [|split].
  - rewrite length_imap. exact Hlength.
  - intros i sample Hsample. eexists. rewrite list_lookup_imap.
    rewrite (Hpoints i sample Hsample). simpl. split; [reflexivity|].
    simpl. rewrite list_lookup_fmap, Hsample. repeat split.
  - apply NoDup_alt. intros i i' key.
    rewrite !list_lookup_fmap, !list_lookup_imap.
    destruct (dataset_data dataset !! i); simpl; [|discriminate].
    destruct (dataset_data dataset !! i'); simpl; [|discriminate].
    intros [= <-] [= Hkey]. symmetry.
    apply index_text_inj, (append_inv_head (label dataset)), Hkey.
Qed.

End ChartExtras.

(** ** Chart.js: the label of a value marker *)

Section DecoratorExtras.

Import Decorator.

Lemma clearTimeout_only (id : nat) : clearTimeout id [id] = [].
Proof. unfold clearTimeout. simpl. rewrite Nat.eqb_refl. reflexivity. Qed.

Lemma step_label_timer_consistent (s : State) (e : Event) :
  label_timer_consistent s -> label_timer_consistent (step s e).
Proof.
  intros [[Hshow Htimers]|[Hshow Htimers]]; destruct e as [|id]; simpl.
  - left. unfold toggleLabel. rewrite Htimers, clearTimeout_only. split; reflexivity.
  - unfold expire. rewrite Htimers.
    destruct (bool_decide_reflect (id ∈ [timeoutID s])) as [Hin|Hout].
    + right. apply list_elem_of_singleton in Hin as ->.
      rewrite clearTimeout_only. split; reflexivity.
    + left. split; assumption.
  - left. unfold toggleLabel. rewrite Htimers. split; reflexivity.
  - unfold expire. rewrite Htimers.
    destruct (bool_decide_reflect (id ∈ @nil nat)) as [Hin|Hout].
    + inversion Hin.
    + right. split; assumption.
Qed.

(** Over every run of presses and timer expiries the label of a marker
    shows exactly while one timer is pending, the one started by the last
    press: a press shows the label and leaves that single timer, the
    expiry of that timer hides the label, and the expiry of any other
    identifier, a timer cleared by a later press included, does nothing. *)
Theorem Decorator_label_timer (es : list Event) (id : nat) :
  let s := run init es in
  label_timer_consistent s
  /\ showLabel (toggleLabel s) = true
  /\ timers (toggleLabel s) = [timeoutID (toggleLabel s)]
  /\ (id <> timeoutID s -> expire id s = s)
  /\ (showLabel s = true ->
      showLabel (expire (timeoutID s) s) = false
      /\ timers (expire (timeoutID s) s) = []).
Proof.
  intros s.
  assert (Hs : label_timer_consistent s).
  { unfold s, run. generalize init (or_intror (conj eq_refl eq_refl)
                                      : label_timer_consistent init).
    induction es as [|e es IH]; intros s0 Hs0; simpl; [exact Hs0|].
    apply IH, step_label_timer_consistent, Hs0. }
  split; [exact Hs|].
  pose proof (step_label_timer_consistent s Press Hs) as [[Hshow Htimers]|[Hshow _]];
    [|discriminate].
  split; [exact Hshow|]. split; [exact Htimers|]. split.
  - intros Hother. unfold expire.
    destruct Hs as [[_ Htimers']|[_ Htimers']]; rewrite Htimers';
      rewrite bool_decide_eq_false_2; try reflexivity.
    + intros Hin. apply list_elem_of_singleton in Hin. contradiction.
    + intros Hin. inversion Hin.
  - intros Hshowing. destruct Hs as [[_ Htimers']|[Hhidden _]]; [|congruence].
    unfold expire. rewrite Htimers'.
    rewrite bool_decide_eq_true_2 by (now apply list_elem_of_singleton).
    simpl. split; [reflexivity|apply clearTimeout_only].
Qed.

End DecoratorExtras.

(** ** From the screen container to the chart *)

Section VisualisationExtras.

Import JS Data Screen Visualisation.

Variables (Date value : Type).
Variable toISOString : Date -> outcome string.
Variable Date_parse : string -> number.
Variable argument_limit : nat.
Variable argument_limit_error : string.
Variable fetchData :
  string -> string -> string -> string -> string -> outcome (list (Sample string)).
Variable fetchTemperatureData : Date -> Date -> outcome (list TemperatureSample).
Variable chartColours : list string.
Variable modelColourScale : string -> option (list number).
Variable props : Props.

Local Abbreviation State := (Screen.State Date value).
Local Abbreviation request := (Screen.request toISOString fetchData props).
Local Abbreviation refresh :=
  (Screen.refresh toISOString Date_parse argument_limit
     argument_limit_error fetchData fetchTemperatureData
     chartColours modelColourScale props).

(** What the chart draws after a refresh that completes (at least one
    sample, readings that fit in one call, temperatures fetched): one
    timestamp per
    fetched sample, parsed from its text, and one dataset for each of the
    first three sensors of the first sample, with one point per sample.
    For the raw data type the container then shows the chart, handing it
    the stored samples and chart options; a screen out of focus shows
    nothing. *)
Theorem Visualisation_chart_after_refresh (c s : State)
    (dataType averagingWindow : string) (startTime endTime : Date)
    (first : Sample string) (rest : list (Sample string))
    (temperatures : list TemperatureSample) (chart : Chart.State) :
  request dataType averagingWindow startTime endTime = Resolved (first :: rest) ->
  fetchTemperatureData startTime endTime = Resolved temperatures ->
  length (flat_map (fun sample : Sample number => (readings sample).*2)
            (map (parse_timestamp Date_parse) (first :: rest)))
  <= argument_limit ->
  let s' := refresh c dataType averagingWindow startTime endTime s in
  let drawn := Chart.dataChange (chart_props s') chart in
  Chart.timestamps drawn
  = (fun sample => Date_parse (timestamp sample)) <$> (first :: rest)
  /\ Chart.label <$> Chart.datasets drawn = take 3 (readings first).*1
  /\ Forall (fun dataset =>
               length (Chart.dataset_data dataset) = S (length rest))
       (Chart.datasets drawn)
  /\ (dataType = "raw" -> showVisualisation s = true ->
      render s' = ShowsChart (chart_props s'))
  /\ (showVisualisation s = false -> render s' = Hidden).
Proof.
  intros Hrequest Htemperatures Hwithin s' drawn.
  pose proof (refresh_completed_state Date value toISOString Date_parse
                argument_limit argument_limit_error fetchData
                fetchTemperatureData chartColours modelColourScale props c s
                dataType averagingWindow startTime endTime first rest temperatures
                Hrequest Htemperatures Hwithin) as Hstate.
  cbv zeta in Hstate. fold s' in Hstate.
  assert (Hdata : data s' = map (parse_timestamp Date_parse) (first :: rest)).
  { rewrite Hstate. destruct (String.eqb dataType "raw"); reflexivity. }
  assert (Hsensors : sensors (chartOptions s')
                     = Screen.sensor_list chartColours (readings first).*1).
  { rewrite Hstate. reflexivity. }
  assert (Hvisible : showVisualisation s' = showVisualisation s).
  { rewrite Hstate. destruct (String.eqb dataType "raw"); reflexivity. }
  assert (Hmode : mode s' = if String.eqb dataType "raw" then 1 else mode s).
  { rewrite Hstate. destruct (String.eqb dataType "raw"); reflexivity. }
  clear Hstate. clearbody s'.
  split; [|split; [|split; [|split]]].
  - unfold drawn. simpl. rewrite Hdata.
    rewrite <- list_fmap_compose. reflexivity.
  - unfold drawn. simpl. rewrite Hsensors, <- list_fmap_compose.
    rewrite sensor_list_selected.
    change (Chart.label ∘ _) with name.
    rewrite fmap_take, sensor_list_names. reflexivity.
  - unfold drawn. simpl. apply Forall_fmap, Forall_forall. intros sensor _.
    simpl. rewrite length_fmap, Hdata, length_fmap. reflexivity.
  - intros -> Hfocus. unfold render, renderVisualisation.
    rewrite Hvisible, Hfocus, Hmode. reflexivity.
  - intros Hblur. unfold render. rewrite Hvisible, Hblur. reflexivity.
Qed.

End VisualisationExtras.

(** ** Examples of the further properties *)

Section ExtraExamples.

Import JS Data Examples.

Lemma Model_colour_effect_witness :
  Model.sensorColours (Model.colourEffect show_integral model_data_props Model.init)
  = [("s1", "hsl(135,100%,50%)"); ("s2", "grey")]
  /\ (Model.sensorColours
        (Model.colourEffect show_integral model_data_props Model.init)).*1
     = ["s1"; "s2"].
Proof.
  split; [reflexivity|].
  exact (proj1 (Model_colour_effect show_integral model_data_props
                  [(-200)%float; 200%float] Model.init
                  [("s1", 0%float); ("s2", 300%float)] eq_refl eq_refl)).
Defined.

Lemma Model_sample_read_witness :
  is_Some (Model.current_sample model_data_props Model.init)
  /\ Model.colourEffect show_integral model_props Model.init = Model.init.
Proof.
  split.
  - apply (Model_sample_read show_integral model_data_props Model.init);
      [reflexivity|discriminate|vm_compute; lia].
  - apply (Model_sample_read show_integral model_props Model.init); reflexivity.
Defined.

Lemma Model_baseZoom_bounded_witness :
  let s := Model.run show_integral pow_half android Model.init
             [Model.PinchGesture 4; Model.HandlerStateChange ACTIVE] in
  Model.baseZoom s = 2%float
  /\ gt (Model.baseZoom s) 0.2 = true /\ lt (Model.baseZoom s) 5 = true.
Proof.
  split; [reflexivity|].
  pose proof (Model_baseZoom_bounded show_integral pow_half android
                [Model.PinchGesture 4; Model.HandlerStateChange ACTIVE])
    as (Hgt & Hlt & _).
  split; [exact Hgt|exact Hlt].
Defined.

Lemma Model_cells_frame_witness :
  Model.index
    (Model.run show_integral pow_half android Model.init
       [Model.ResponderMove one_touch; Model.PinchGesture 4; Model.ResetPress])
  = 0.
Proof.
  apply (Model_cells_frame show_integral pow_half android
           [Model.ResponderMove one_touch; Model.PinchGesture 4; Model.ResetPress]
           Model.init).
  repeat constructor.
Defined.

Local Abbreviation refresh_strain :=
  (Screen.refresh toISOString Date_parse argument_limit
     argument_limit_error fetchData fetchTemperatureData
     chartColours modelColourScale screen_props screen_init "str" "hour"
     (june 2) (june 3) screen_init).

Lemma Screen_refresh_completes_witness :
  length (Screen.data refresh_strain) = 2
  /\ Screen.dataRange refresh_strain = [(-7)%float; 12%float]
  /\ Screen.isLoading refresh_strain = false
  /\ Screen.alerts refresh_strain = [].
Proof.
  pose proof (Screen_refresh_completes date value toISOString Date_parse
                argument_limit argument_limit_error fetchData
                fetchTemperatureData chartColours modelColourScale screen_props
                screen_init screen_init "str" "hour" (june 2) (june 3)
                _ _ _ eq_refl eq_refl) as Hcompletes.
  destruct (Hcompletes ltac:(apply Nat.leb_le; reflexivity))
    as (Hdata & Hrange & _ & _ & _ & _ & Hloading & Halerts).
  split; [rewrite Hdata; reflexivity|].
  split; [rewrite Hrange; reflexivity|].
  split; [exact Hloading|exact Halerts].
Defined.

Lemma Screen_dataRange_brackets_witness :
  exists lo hi,
    Screen.dataRange refresh_strain = [lo; hi]
    /\ le lo 3 = true /\ le 3 hi = true.
Proof.
  pose proof (Screen_dataRange_brackets date value toISOString Date_parse
              argument_limit argument_limit_error fetchData
              fetchTemperatureData chartColours modelColourScale screen_props
              screen_init screen_init "str" "hour" (june 2) (june 3)
              _ _ _ eq_refl eq_refl) as Hbrackets.
  destruct (Hbrackets ltac:(apply Nat.leb_le; reflexivity))
    as (lo & hi & Hrange & Hnumbers & _).
  exists lo, hi. split; [exact Hrange|].
  assert (Hall : Forall (fun v => ~ is_NaN v)
                   [10; -5; 0; 3; 12; -7; 1; 2]%float)
    by (repeat constructor; discriminate).
  destruct (Hnumbers Hall) as [Hbounds _].
  exact (proj1 (Forall_forall _ _) Hbounds 3%float ltac:(repeat constructor)).
Defined.

(** On an engine that takes four arguments, the eight strain readings do
    not fit: the two samples are stored and the range keeps its value. *)
Lemma Screen_refresh_argument_limit_witness :
  let s' :=
    Screen.refresh toISOString Date_parse 4 argument_limit_error fetchData
      fetchTemperatureData chartColours modelColourScale screen_props
      screen_init "str" "hour" (june 2) (june 3) screen_init in
  length (Screen.data s') = 2
  /\ Screen.alerts s' = [("Refresh error", argument_limit_error)]
  /\ Screen.dataRange s' = [].
Proof.
  intros s'.
  pose proof (Screen_refresh_argument_limit date value toISOString Date_parse 4
                argument_limit_error fetchData fetchTemperatureData chartColours
                modelColourScale screen_props screen_init screen_init "str" "hour"
                (june 2) (june 3) _ _ eq_refl) as Hlimit.
  destruct (Hlimit ltac:(apply Nat.ltb_lt; reflexivity))
    as (Hdata & Halerts & Hrange & _).
  fold s' in Hdata, Halerts, Hrange.
  split; [rewrite Hdata; reflexivity|]. split; [exact Halerts|exact Hrange].
Defined.

Lemma Screen_sensor_colours_witness :
  exists c, c ∈ chartColours
    /\ colour (mkSensor "s4" false (Some "red")) = Some c.
Proof.
  destruct (Screen_sensor_colours chartColours ["s1"; "s2"; "s3"; "s4"] 3
              (mkSensor "s4" false (Some "red")) eq_refl)
    as (Hcolour & _).
  destruct (Hcolour ltac:(discriminate)) as (c & Hc & Hin).
  exists c. split; assumption.
Defined.

Lemma Screen_liveStatus_updates_witness :
  Screen.liveMode
    (Screen.liveStatusUpdates modelColourScale screen_props live_raw
       ([["bridge"]] ++ ["tower"] :: [["bridge"]; ["bridge"; "tower"]]))
  = false.
Proof.
  apply (Screen_liveStatus_updates date value modelColourScale screen_props
           [["bridge"]] [["bridge"]; ["bridge"; "tower"]] ["tower"] live_raw).
  intros Hin. apply list_elem_of_singleton in Hin. discriminate.
Defined.

Lemma Screen_sensor_fetch_failure_ends_live_witness :
  let s1 := Screen.socketEffectRerun fetchSensorNames chartColours screen_props
              live_raw live_raw in
  let s2 := Screen.socketEffectRerun fetchSensorNames chartColours screen_props
              s1 s1 in
  Screen.liveMode s1 = false /\ Screen.ws s2 = None /\ Screen.liveData s2 = [].
Proof.
  intros s1 s2.
  pose proof (Screen_sensor_fetch_failure_ends_live date value fetchSensorNames
                chartColours screen_props live_raw s1 live_raw
                "Network request failed" eq_refl eq_refl eq_refl)
    as (Hoff & _ & _ & _ & _ & Hws & Hdata & _).
  split; [exact Hoff|]. split; [exact Hws|exact Hdata].
Defined.

Lemma Chart_datasets_witness :
  Chart.dataset_data (Chart.mkDataset [Some 1%float] (Some "red") "s1") !! 0
  = Some (Some 1%float).
Proof.
  pose proof (Chart_datasets single_props Chart.init) as (_ & _ & Hpoints & _).
  exact (Hpoints 0 (Chart.mkDataset [Some 1%float] (Some "red") "s1") 0
           (mkSample 50%float [("s1", 1%float)]) eq_refl eq_refl).
Defined.

Lemma Chart_window_established_witness :
  Chart.window_inside
    (Chart.gestures (Some android) (Chart.dataChange chart_props Chart.init)
       [Chart.Layout 100; Chart.PinchGesture 2 50;
        Chart.ResponderMove [mkTouch 10 40 0 0]]).
Proof.
  apply (Chart_window_established (Some android) chart_props Chart.init
           [Chart.Layout 100; Chart.PinchGesture 2 50;
            Chart.ResponderMove [mkTouch 10 40 0 0]]);
    discriminate.
Defined.


Lemma Chart_no_selection_witness :
  Chart.gestures (Some android) (Chart.dataChange unselected_props Chart.init)
    [Chart.Layout 100; Chart.PinchGesture 2 50]
  = Chart.dataChange unselected_props Chart.init.
Proof.
  apply (Chart_no_selection (Some android) unselected_props Chart.init
           [Chart.Layout 100; Chart.PinchGesture 2 50]).
  repeat constructor.
Defined.

Lemma Chart_gestures_frame_witness :
  Chart.width
    (Chart.gestures (Some android) chart_loaded
       [Chart.PinchGesture 2 50; Chart.HandlerStateChange ACTIVE])
  = 100%float.
Proof.
  apply (Chart_gestures_frame (Some android)
           [Chart.PinchGesture 2 50; Chart.HandlerStateChange ACTIVE]
           chart_loaded).
  repeat constructor.
Defined.

Lemma Chart_decorators_witness :
  exists dataset,
    Chart.datasets (Chart.dataChange single_props Chart.init) !! 0 = Some dataset
    /\ NoDup [("s1" +:+ "0")%string].
Proof.
  destruct (Chart_decorators single_props Chart.init 0
              [Chart.mkDecoratorProps "s10" (Some 1%float) (Some 50%float)
                 (Some "red")] eq_refl)
    as (dataset & Hdataset & _ & _ & Hkeys).
  exists dataset. split; [exact Hdataset|exact Hkeys].
Defined.

Lemma Decorator_label_timer_witness :
  let s := Decorator.run Decorator.init
             [Decorator.Press; Decorator.Press; Decorator.Expire 1] in
  Decorator.showLabel s = true
  /\ Decorator.timers s = [2]
  /\ Decorator.expire 1 s = s.
Proof.
  intros s. split; [reflexivity|]. split; [reflexivity|].
  apply (Decorator_label_timer
           [Decorator.Press; Decorator.Press; Decorator.Expire 1] 1).
  discriminate.
Defined.

Lemma Visualisation_chart_after_refresh_witness :
  Chart.label
    <$> Chart.datasets
          (Chart.dataChange (Visualisation.chart_props refresh_strain) Chart.init)
  = ["s1"; "s2"; "s3"].
Proof.
  pose proof (Visualisation_chart_after_refresh date value toISOString Date_parse
                argument_limit argument_limit_error fetchData
                fetchTemperatureData chartColours modelColourScale
                screen_props screen_init screen_init "str" "hour" (june 2)
                (june 3) _ _ _ Chart.init eq_refl eq_refl) as Hdrawn.
  exact (proj1 (proj2 (Hdrawn ltac:(apply Nat.leb_le; reflexivity)))).
Defined.

End ExtraExamples.
